(** * fvhiot.database.influxdb: line-protocol and record formatters

    A shallow embedding of [src/fvhiot/database/influxdb.py] together with
    the part of the Python runtime the module relies on (binary64 floats,
    [str]/[repr] of scalars, insertion-ordered dicts living in a shared
    store, aware datetimes), followed by the properties of the formatters
    and of the write invoker. *)

From Stdlib Require Import ZArith List String Ascii Bool Lia.
From Stdlib Require Import Permutation Sorted DecimalString.
From Stdlib Require Import SpecFloat.
Import ListNotations.

Local Open Scope string_scope.
Local Open Scope Z_scope.

(** ** Exceptions and results *)

(** The built-in exceptions the formatters can raise, and [ApiException]
    for a failure reported by the database client. *)
Inductive exn : Type :=
| TypeError
| ValueError
| OverflowError
| ZeroDivisionError
| ApiException (msg : string).

Inductive result (A : Type) : Type :=
| Ok (a : A)
| Raise (e : exn).
Arguments Ok {A} a.
Arguments Raise {A} e.

(** ** Binary64 floating point

    Python's [float] is an IEEE-754 binary64 number; [spec_float] at
    precision 53 and [emax = 1024] is its bit-exact description. *)
Module PyFloat.

Definition prec : Z := 53.
Definition emax : Z := 1024.

Definition pyfloat : Type := spec_float.

Definition mul : pyfloat -> pyfloat -> pyfloat := SFmul prec emax.

(** Nearest binary64 to the rational [n / d] ([0 <= n], [0 < d]) under the
    sign [neg], ties to even; infinite when the quotient is beyond the
    largest finite double. *)
Definition round_quotient (neg : bool) (n d : Z) : pyfloat :=
  match n with
  | Z0 => S754_zero neg
  | _ =>
      let '(q, e, l) := SFdiv_core_binary prec emax n 0 d 0 in
      binary_round_aux prec emax neg q e l
  end.

(** [float(n)] for an [int]: correctly rounded, [OverflowError] when the
    integer is too large for a double. *)
Definition of_int (n : Z) : result pyfloat :=
  match binary_normalize prec emax n 0 false with
  | S754_infinity _ => Raise OverflowError
  | f => Ok f
  end.

(** [a / b] on two [int]s: the correctly rounded quotient. *)
Definition int_true_div (a b : Z) : result pyfloat :=
  if b =? 0 then Raise ZeroDivisionError
  else
    match round_quotient (xorb (a <? 0) (b <? 0)) (Z.abs a) (Z.abs b) with
    | S754_infinity _ => Raise OverflowError
    | f => Ok f
    end.

(** [int(x)] for a float: truncation toward zero; [ValueError] on a NaN
    and [OverflowError] on an infinity. *)
Definition to_int (x : pyfloat) : result Z :=
  match x with
  | S754_nan => Raise ValueError
  | S754_infinity _ => Raise OverflowError
  | S754_zero _ => Ok 0
  | S754_finite s m e =>
      let a := match e with
               | Zneg p => Z.shiftr (Zpos m) (Zpos p)
               | _ => Z.shiftl (Zpos m) e
               end in
      Ok (if s then - a else a)
  end.

End PyFloat.

(** ** Text of integers and floats *)

(** [str(n)] for an [int]. *)
Definition str_of_int (n : Z) : string := NilZero.string_of_int (Z.to_int n).

Fixpoint repeat_string (n : nat) (s : string) : string :=
  match n with
  | O => EmptyString
  | S n' => s ++ repeat_string n' s
  end.

Fixpoint strip_zeros_rev (l : list ascii) : list ascii :=
  match l with
  | "0"%char :: l' => strip_zeros_rev l'
  | _ => l
  end.

(** Drops the trailing ["0"] characters of a digit string. *)
Definition strip_trailing_zeros (s : string) : string :=
  string_of_list_ascii (rev (strip_zeros_rev (rev (list_ascii_of_string s)))).

Module FloatRepr.

(** Comparison of [a * 10^k] with [b * 2^e], in exact integer arithmetic. *)
Definition cmp_scaled (a k b e : Z) : comparison :=
  Z.compare (a * 10 ^ Z.max k 0 * 2 ^ Z.max (- e) 0)
            (b * 10 ^ Z.max (- k) 0 * 2 ^ Z.max e 0).

(** [floor (b * 2^e / 10^k)]. *)
Definition floor_scaled (b e k : Z) : Z :=
  (b * 2 ^ Z.max e 0 * 10 ^ Z.max (- k) 0)
  / (2 ^ Z.max (- e) 0 * 10 ^ Z.max k 0).

(** The least [p >= p0] with [m * 2^e < 10^p]. *)
Fixpoint decimal_exponent (fuel : nat) (p m e : Z) : Z :=
  match fuel with
  | O => p
  | S fuel' =>
      match cmp_scaled 1 p m e with
      | Gt => p
      | _ => decimal_exponent fuel' (p + 1) m e
      end
  end.

(** The decimals that read back as the double [m * 2^e] are those between
    the two midpoints to its neighbours, the midpoints included when [m] is
    even.  Bounds are kept in units of [2^(e-2)]. *)
Definition low_bound (m e : Z) : Z :=
  if (m =? 2 ^ 52) && (-1074 <? e) then 4 * m - 1 else 4 * m - 2.
Definition high_bound (m : Z) : Z := 4 * m + 2.

Definition reads_back (m e c k : Z) : bool :=
  let incl := Z.even m in
  match cmp_scaled c k (low_bound m e) (e - 2) with
  | Gt => true | Eq => incl | Lt => false
  end &&
  match cmp_scaled c k (high_bound m) (e - 2) with
  | Lt => true | Eq => incl | Gt => false
  end.

(** The shortest decimal [c * 10^k] that reads back as [m * 2^e]; among
    those of that length the one nearest to the double, ties to the even
    digit.  [n] is the number of digits tried, [p] the decimal exponent. *)
Fixpoint shortest (fuel : nat) (n p m e : Z) : Z * Z :=
  let k := p - n in
  let a := floor_scaled m e k in
  match fuel with
  | O => (a, k)
  | S fuel' =>
      match reads_back m e a k, reads_back m e (a + 1) k with
      | true, true =>
          match cmp_scaled (2 * a + 1) k (2 * m) e with
          | Gt => (a, k)
          | Lt => (a + 1, k)
          | Eq => (if Z.even a then a else a + 1, k)
          end
      | true, false => (a, k)
      | false, true => (a + 1, k)
      | false, false => shortest fuel' (n + 1) p m e
      end
  end.

(** Digits and position of the decimal point: the value is
    [0.digits * 10^decpt]. *)
Definition digits_of (m e : Z) : string * Z :=
  let p := decimal_exponent 640 (-324) m e in
  let '(c, k) := shortest 17 1 p m e in
  let s := NilZero.string_of_uint (N.to_uint (Z.to_N c)) in
  (strip_trailing_zeros s, Z.of_nat (String.length s) + k).

Definition exponent_text (x : Z) : string :=
  let a := Z.abs x in
  (if x <? 0 then "-" else "+") ++ (if a <? 10 then "0" else "") ++ str_of_int a.

(** The layout of [float_repr_style = 'short']: exponent notation when the
    decimal point falls outside of (-4, 16], otherwise positional with at
    least one digit after the point. *)
Definition layout (ds : string) (decpt : Z) : string :=
  let n := Z.of_nat (String.length ds) in
  if (decpt <=? -4) || (16 <? decpt) then
    match ds with
    | String d EmptyString => String d EmptyString ++ "e" ++ exponent_text (decpt - 1)
    | String d rest => String d ("." ++ rest) ++ "e" ++ exponent_text (decpt - 1)
    | EmptyString => "0e" ++ exponent_text (decpt - 1)
    end
  else if decpt <=? 0 then
    "0." ++ repeat_string (Z.to_nat (- decpt)) "0" ++ ds
  else if n <=? decpt then
    ds ++ repeat_string (Z.to_nat (decpt - n)) "0" ++ ".0"
  else
    substring 0 (Z.to_nat decpt) ds ++ "." ++
    substring (Z.to_nat decpt) (Z.to_nat (n - decpt)) ds.

(** [repr(x)], which is also [str(x)] and what an f-string inserts. *)
Definition repr (x : PyFloat.pyfloat) : string :=
  match x with
  | S754_nan => "nan"
  | S754_infinity s => if s then "-inf" else "inf"
  | S754_zero s => if s then "-0.0" else "0.0"
  | S754_finite s m e =>
      let '(ds, decpt) := digits_of (Zpos m) e in
      (if s then "-" else "") ++ layout ds decpt
  end.

End FloatRepr.

(** ** Reading a float from text

    [float(s)] for a [str]: surrounding whitespace is dropped, single
    underscores may separate digits, and the rest is either a decimal
    literal or an infinity or NaN word.

    A [string] holds the characters of an ASCII [str].  On such text
    [float] reads the characters as they are; text with characters beyond
    ASCII goes through a translation of Unicode digits and spaces first,
    which is not described here: the statements that depend on what
    [float] rejects are about ASCII text ([ascii_text] below). *)
Module FloatParse.

(** [Py_ISSPACE]: tab, line feed, vertical tab, form feed, carriage return
    and the space; the separators 28..31 are not among them. *)
Definition is_space (c : ascii) : bool :=
  let n := nat_of_ascii c in
  ((9 <=? n) && (n <=? 13) || (n =? 32))%nat.

Definition is_digit (c : ascii) : bool :=
  let n := nat_of_ascii c in ((48 <=? n) && (n <=? 57))%nat.

Definition digit_value (c : ascii) : Z := Z.of_nat (nat_of_ascii c) - 48.

Definition lower (c : ascii) : ascii :=
  let n := nat_of_ascii c in
  if ((65 <=? n) && (n <=? 90))%nat then ascii_of_nat (n + 32) else c.

Fixpoint lstrip (l : list ascii) : list ascii :=
  match l with
  | c :: l' => if is_space c then lstrip l' else l
  | [] => []
  end.

Definition strip (l : list ascii) : list ascii := rev (lstrip (rev (lstrip l))).

Definition is_underscore (c : ascii) : bool := Ascii.eqb c "_".

(** An underscore needs a digit on both sides; [prev] is the character
    before [l], if any. *)
Fixpoint drop_underscores (prev : option ascii) (l : list ascii)
  : option (list ascii) :=
  match l with
  | [] =>
      match prev with
      | Some p => if is_underscore p then None else Some []
      | None => Some []
      end
  | c :: l' =>
      if is_underscore c then
        match prev with
        | Some p => if is_digit p then drop_underscores (Some c) l' else None
        | None => None
        end
      else
        let bad := match prev with
                   | Some p => is_underscore p && negb (is_digit c)
                   | None => false
                   end in
        if bad then None
        else option_map (cons c) (drop_underscores (Some c) l')
  end.

Definition take_sign (l : list ascii) : bool * list ascii :=
  match l with
  | "-"%char :: l' => (true, l')
  | "+"%char :: l' => (false, l')
  | _ => (false, l)
  end.

(** Reads a run of digits: the number read after [acc], how many digits
    there were, and what follows. *)
Fixpoint take_digits (l : list ascii) (acc : Z) (cnt : Z) : Z * Z * list ascii :=
  match l with
  | c :: l' =>
      if is_digit c then take_digits l' (10 * acc + digit_value c) (cnt + 1)
      else (acc, cnt, l)
  | [] => (acc, cnt, [])
  end.

(** The double nearest to [m * 10^k] with sign [neg]. *)
Definition of_decimal (neg : bool) (m k : Z) : PyFloat.pyfloat :=
  if 0 <=? k then PyFloat.round_quotient neg (m * 10 ^ k) 1
  else PyFloat.round_quotient neg m (10 ^ (- k)).

Definition parse_decimal (l : list ascii) : option PyFloat.pyfloat :=
  let '(neg, l1) := take_sign l in
  let '(i, ni, l2) := take_digits l1 0 0 in
  let '(m, nf, l3) :=
    match l2 with
    | "."%char :: r => take_digits r i 0
    | _ => (i, 0, l2)
    end in
  if ni + nf =? 0 then None
  else
    match l3 with
    | [] => Some (of_decimal neg m (- nf))
    | c :: r =>
        if Ascii.eqb (lower c) "e" then
          let '(xneg, r1) := take_sign r in
          let '(x, nx, r2) := take_digits r1 0 0 in
          match nx =? 0, r2 with
          | false, [] => Some (of_decimal neg m ((if xneg then - x else x) - nf))
          | _, _ => None
          end
        else None
    end.

Definition parse_word (l : list ascii) : option PyFloat.pyfloat :=
  let '(neg, l1) := take_sign l in
  let w := string_of_list_ascii (map lower l1) in
  if String.eqb w "inf" || String.eqb w "infinity" then Some (S754_infinity neg)
  else if String.eqb w "nan" then Some S754_nan
  else None.

Definition of_string (s : string) : result PyFloat.pyfloat :=
  match drop_underscores None (strip (list_ascii_of_string s)) with
  | None => Raise ValueError
  | Some l =>
      match parse_decimal l with
      | Some f => Ok f
      | None =>
          match parse_word l with
          | Some f => Ok f
          | None => Raise ValueError
          end
      end
  end.

End FloatParse.

(** ** Aware datetimes

    The proleptic Gregorian calendar of the [datetime] module.  A value of
    [datetime] below is an aware one: its fields are local time and
    [utcoffset] is what its [tzinfo] answers for it, in microseconds. *)
Module Datetime.

Record datetime : Type := mk_datetime {
  year : Z; month : Z; day : Z;
  hour : Z; minute : Z; second : Z; microsecond : Z;
  utcoffset : Z
}.

Definition MAXORDINAL : Z := 3652059.
Definition DI400Y : Z := 146097.
Definition DI100Y : Z := 36524.
Definition DI4Y : Z := 1461.
Definition US_PER_DAY : Z := 86400000000.

Definition is_leap (y : Z) : bool :=
  (y mod 4 =? 0) && (negb (y mod 100 =? 0) || (y mod 400 =? 0)).

Definition days_before_year (y : Z) : Z :=
  let y' := y - 1 in y' * 365 + y' / 4 - y' / 100 + y' / 400.

Definition DAYS_IN_MONTH : list Z :=
  [-1; 31; 28; 31; 30; 31; 30; 31; 31; 30; 31; 30; 31].
Definition DAYS_BEFORE_MONTH : list Z :=
  [-1; 0; 31; 59; 90; 120; 151; 181; 212; 243; 273; 304; 334].

Definition days_in_month (y m : Z) : Z :=
  if (m =? 2) && is_leap y then 29 else nth (Z.to_nat m) DAYS_IN_MONTH 0.

Definition days_before_month (y m : Z) : Z :=
  nth (Z.to_nat m) DAYS_BEFORE_MONTH 0 + (if (2 <? m) && is_leap y then 1 else 0).

Definition ymd2ord (y m d : Z) : Z :=
  days_before_year y + days_before_month y m + d.

Definition ord2ymd (n : Z) : Z * Z * Z :=
  let n := n - 1 in
  let n400 := n / DI400Y in let n := n mod DI400Y in
  let y := n400 * 400 + 1 in
  let n100 := n / DI100Y in let n := n mod DI100Y in
  let n4 := n / DI4Y in let n := n mod DI4Y in
  let n1 := n / 365 in let n := n mod 365 in
  let y := y + n100 * 100 + n4 * 4 + n1 in
  if (n1 =? 4) || (n100 =? 4) then (y - 1, 12, 31)
  else
    let leapyear := (n1 =? 3) && (negb (n4 =? 24) || (n100 =? 3)) in
    let m := Z.shiftr (n + 50) 5 in
    let preceding :=
      nth (Z.to_nat m) DAYS_BEFORE_MONTH 0
      + (if (2 <? m) && leapyear then 1 else 0) in
    if n <? preceding then
      let m' := m - 1 in
      let preceding' :=
        preceding - (nth (Z.to_nat m') DAYS_IN_MONTH 0
                     + (if (m' =? 2) && leapyear then 1 else 0)) in
      (y, m', n - preceding' + 1)
    else (y, m, n - preceding + 1).

(** What the constructor accepts. *)
Definition valid (t : datetime) : bool :=
  (1 <=? year t) && (year t <=? 9999) &&
  (1 <=? month t) && (month t <=? 12) &&
  (1 <=? day t) && (day t <=? days_in_month (year t) (month t)) &&
  (0 <=? hour t) && (hour t <? 24) &&
  (0 <=? minute t) && (minute t <? 60) &&
  (0 <=? second t) && (second t <? 60) &&
  (0 <=? microsecond t) && (microsecond t <? 1000000) &&
  (- US_PER_DAY <? utcoffset t) && (utcoffset t <? US_PER_DAY).

(** Microseconds from 0001-01-01T00:00:00 to the local fields. *)
Definition local_us (t : datetime) : Z :=
  ((ymd2ord (year t) (month t) (day t) - 1) * 86400
   + hour t * 3600 + minute t * 60 + second t) * 1000000 + microsecond t.

(** [t.astimezone(ZoneInfo("UTC"))]: the same instant with UTC fields;
    [OverflowError] when its date would leave years 1..9999. *)
Definition astimezone_utc (t : datetime) : result datetime :=
  let u := local_us t - utcoffset t in
  let ord := u / US_PER_DAY + 1 in
  let rest := u mod US_PER_DAY in
  if (0 <? ord) && (ord <=? MAXORDINAL) then
    let '(y, m, d) := ord2ymd ord in
    let secs := rest / 1000000 in
    Ok (mk_datetime y m d (secs / 3600) (secs mod 3600 / 60) (secs mod 60)
                    (rest mod 1000000) 0)
  else Raise OverflowError.

(** Whole microseconds from 1970-01-01T00:00:00Z to the instant of [t]. *)
Definition epoch_us (t : datetime) : Z :=
  local_us t - utcoffset t - (ymd2ord 1970 1 1 - 1) * US_PER_DAY.

(** [t.timestamp()]: [(t - EPOCH).total_seconds()], an [int] of
    microseconds divided by [10**6]. *)
Definition timestamp (t : datetime) : result PyFloat.pyfloat :=
  PyFloat.int_true_div (epoch_us t) (10 ^ 6).

(** ["%0nd" % v] for a non-negative [v]. *)
Definition zero_pad (n : nat) (v : Z) : string :=
  let s := str_of_int v in
  repeat_string (n - String.length s) "0" ++ s.

Definition format_offset (off : Z) : string :=
  let a := Z.abs off in
  let hh := a / 3600000000 in
  let r := a mod 3600000000 in
  let mm := r / 60000000 in
  let ss := r mod 60000000 in
  (if off <? 0 then "-" else "+") ++ zero_pad 2 hh ++ ":" ++ zero_pad 2 mm ++
  (if ss =? 0 then ""
   else ":" ++ zero_pad 2 (ss / 1000000) ++
        (if ss mod 1000000 =? 0 then "" else "." ++ zero_pad 6 (ss mod 1000000))).

(** [t.isoformat()]. *)
Definition isoformat (t : datetime) : string :=
  zero_pad 4 (year t) ++ "-" ++ zero_pad 2 (month t) ++ "-" ++ zero_pad 2 (day t)
  ++ "T" ++ zero_pad 2 (hour t) ++ ":" ++ zero_pad 2 (minute t) ++ ":"
  ++ zero_pad 2 (second t)
  ++ (if microsecond t =? 0 then "" else "." ++ zero_pad 6 (microsecond t))
  ++ format_offset (utcoffset t).

End Datetime.

Import Datetime.

(** ** Values, dicts and the store *)

(** The scalar values a tags or fields dict holds. *)
Inductive pyval : Type :=
| PyNone
| PyBool (b : bool)
| PyInt (n : Z)
| PyFloat (x : PyFloat.pyfloat)
| PyStr (s : string).

(** [float(v)]. *)
Definition py_float (v : pyval) : result PyFloat.pyfloat :=
  match v with
  | PyNone => Raise TypeError
  | PyBool b => PyFloat.of_int (if b then 1 else 0)
  | PyInt n => PyFloat.of_int n
  | PyFloat x => Ok x
  | PyStr s => FloatParse.of_string s
  end.

(** [format(v, "")], what an f-string replacement field inserts. *)
Definition py_str (v : pyval) : string :=
  match v with
  | PyNone => "None"
  | PyBool b => if b then "True" else "False"
  | PyInt n => str_of_int n
  | PyFloat x => FloatRepr.repr x
  | PyStr s => s
  end.

Definition item : Type := string * pyval.

(** A dict with [str] keys: its entries in insertion order. *)
Definition dict : Type := list item.

Fixpoint dict_get (k : string) (d : dict) : option pyval :=
  match d with
  | [] => None
  | (k', v) :: d' => if String.eqb k k' then Some v else dict_get k d'
  end.

(** [d[k] = v]: an existing key keeps its place, a new one goes last. *)
Fixpoint dict_set (k : string) (v : pyval) (d : dict) : dict :=
  match d with
  | [] => [(k, v)]
  | (k', v') :: d' =>
      if String.eqb k k' then (k', v) :: d' else (k', v') :: dict_set k v d'
  end.

Definition keys (d : dict) : list string := map fst d.

(** Keys of a dict are pairwise different. *)
Definition wf_dict (d : dict) : Prop := NoDup (keys d).

(** [sorted(list(d.items()))].  Items are [(key, value)] tuples and tuples
    compare by their first differing component; two items of one dict never
    share a key, so the order is the one of [str] on the keys.  The sort is
    stable and asks only [<]. *)
Definition item_ltb (a b : item) : bool := String.ltb (fst a) (fst b).

Fixpoint insert_item (x : item) (l : list item) : list item :=
  match l with
  | [] => [x]
  | y :: l' => if item_ltb y x then y :: insert_item x l' else x :: l
  end.

Definition sorted (l : list item) : list item := fold_right insert_item [] l.

(** [sep.join(l)]. *)
Fixpoint join (sep : string) (l : list string) : string :=
  match l with
  | [] => EmptyString
  | [s] => s
  | s :: l' => s ++ sep ++ join sep l'
  end.

(** [f"{i[0]}={i[1]}"]. *)
Definition render_item (i : item) : string := fst i ++ "=" ++ py_str (snd i).

(** The comma separated [key=value] list of the sorted items. *)
Definition kv_list (d : dict) : string := join "," (map render_item (sorted d)).

(** What the write invoker asks of the database client. *)
Inductive outval : Type :=
| OStr (s : string)
| ODict (r : nat).

Definition record : Type := list (string * outval).

Inductive payload : Type :=
| PLine (s : string)
| PRecord (r : record).

Inductive event : Type :=
| EvWriteApi
| EvWrite (bucket org : string) (data : payload)
| EvClose.

(** Dict objects live in a store and are passed by reference; [net] is the
    trace of the calls made on the database client. *)
Record world : Type := mk_world {
  store : list dict;
  net : list event
}.

Definition ref : Type := nat.

Definition deref (w : world) (r : ref) : dict := nth r (store w) [].

Fixpoint list_set {A} (l : list A) (i : nat) (x : A) : list A :=
  match l, i with
  | [], _ => []
  | _ :: l', O => x :: l'
  | y :: l', S i' => y :: list_set l' i' x
  end.

(** ** Computations: a store, and exceptions that keep its changes *)

Definition M (A : Type) : Type := world -> result A * world.

Definition ret {A} (a : A) : M A := fun w => (Ok a, w).
Definition raise {A} (e : exn) : M A := fun w => (Raise e, w).
Definition bind {A B} (m : M A) (k : A -> M B) : M B :=
  fun w => match m w with
           | (Ok a, w') => k a w'
           | (Raise e, w') => (Raise e, w')
           end.
Definition lift {A} (r : result A) : M A := fun w => (r, w).

Notation "x <- m ;; k" := (bind m (fun x => k))
  (at level 61, m at next level, right associativity).
Notation "m ;;; k" := (bind m (fun _ => k))
  (at level 61, right associativity).

Definition bind_result {A B} (r : result A) (k : A -> result B) : result B :=
  match r with Ok a => k a | Raise e => Raise e end.

Definition read (r : ref) : M dict := fun w => (Ok (deref w r), w).
Definition write (r : ref) (d : dict) : M unit :=
  fun w => (Ok tt, mk_world (list_set (store w) r d) (net w)).
(** A new dict object. *)
Definition alloc (d : dict) : M ref :=
  fun w => (Ok (List.length (store w)), mk_world (store w ++ [d])%list (net w)).
Definition emit (e : event) : M unit :=
  fun w => (Ok tt, mk_world (store w) (net w ++ [e])%list).

(** [obj[k] = v] on the dict object [r]. *)
Definition setitem (r : ref) (k : string) (v : pyval) : M unit :=
  d <- read r ;; write r (dict_set k v d).

(** [obj.update(other)] for a literal [other]. *)
Fixpoint update (r : ref) (other : dict) : M unit :=
  match other with
  | [] => ret tt
  | (k, v) :: rest => setitem r k v ;;; update r rest
  end.

(** ** The clock *)

(** What [time.time()] and [datetime.datetime.now(ZoneInfo("UTC"))] answer
    during the call. *)
Record clock : Type := mk_clock {
  time_time : PyFloat.pyfloat;
  datetime_now_utc : datetime
}.

(** ** The module's functions *)

(** [x * n] for a float and an [int]. *)
Definition float_mul_int (x : PyFloat.pyfloat) (n : Z) : result PyFloat.pyfloat :=
  bind_result (PyFloat.of_int n) (fun y => Ok (PyFloat.mul x y)).

(** [int(x * 10**9)]. *)
Definition to_nanoseconds (x : PyFloat.pyfloat) : result Z :=
  bind_result (float_mul_int x (10 ^ 9)) PyFloat.to_int.

(** The loop [for k, v in fields.items(): fields[k] = float(v)]: the view
    is walked by position over the live dict, [n] entries being left. *)
Fixpoint coerce_from (n i : nat) (fields : ref) : M unit :=
  match n with
  | O => ret tt
  | S n' =>
      d <- read fields ;;
      match nth_error d i with
      | None => ret tt
      | Some (k, v) =>
          x <- lift (py_float v) ;;
          setitem fields k (PyFloat x) ;;;
          coerce_from n' (S i) fields
      end
  end.

Definition coerce_fields (fields : ref) : M unit :=
  d <- read fields ;; coerce_from (List.length d) 0 fields.

(** Lines 63-68: the value of the local [time_int]. *)
Definition time_int (c : clock) (timestamp : option datetime) : result Z :=
  match timestamp with
  | None => to_nanoseconds (time_time c)
  | Some t =>
      bind_result (astimezone_utc t) (fun t' =>
      bind_result (Datetime.timestamp t') to_nanoseconds)
  end.

(** Lines 96-102: the value of the local [timestamp] once it is resolved;
    [time_int] is computed there as well, and dropped. *)
Definition utc_timestamp (c : clock) (timestamp : option datetime)
  : result datetime :=
  match timestamp with
  | None =>
      bind_result (to_nanoseconds (time_time c)) (fun _ =>
      Ok (datetime_now_utc c))
  | Some t =>
      bind_result (astimezone_utc t) (fun t' =>
      bind_result (bind_result (Datetime.timestamp t') to_nanoseconds)
        (fun _ => Ok t'))
  end.

Definition create_influxdb_line (c : clock) (dev_id measurement_name : string)
    (fields : ref) (tags : option ref) (timestamp : option datetime) : M string :=
  time_int <- lift (time_int c timestamp) ;;
  tags <- match tags with
          | None => alloc []
          | Some r => ret r
          end ;;
  update tags [("dev-id", PyStr dev_id)] ;;;
  t <- read tags ;;
  let tag_str := kv_list t in
  coerce_fields fields ;;;
  f <- read fields ;;
  let field_str := kv_list f in
  let measurement :=
    measurement_name ++ "," ++ tag_str ++ " " ++ field_str ++ " "
    ++ str_of_int time_int in
  ret measurement.

Definition create_influxdb_dict (c : clock) (dev_id measurement_name : string)
    (fields : ref) (tags : option ref) (timestamp : option datetime) : M record :=
  timestamp <- lift (utc_timestamp c timestamp) ;;
  tags <- match tags with
          | None => alloc []
          | Some r => ret r
          end ;;
  update tags [("dev-id", PyStr dev_id)] ;;;
  ret [("measurement", OStr measurement_name); ("tags", ODict tags);
       ("fields", ODict fields); ("time", OStr (isoformat timestamp))].

(** The database client: whether the server takes a write. *)
Record client : Type := mk_client {
  write_outcome : string -> string -> payload -> result unit
}.

Definition write_data (cl : client) (bucket org : string) (data_obj : payload)
  : M unit :=
  emit EvWriteApi ;;;
  (emit (EvWrite bucket org data_obj) ;;;
   lift (write_outcome cl bucket org data_obj)) ;;;
  emit EvClose.


(** ** Vocabulary of the statements *)

Definition valid_ref (w : world) (r : ref) : Prop := (r < List.length (store w))%nat.

(** The world with the dict object [r] holding [d]. *)
Definition set_dict (w : world) (r : ref) (d : dict) : world :=
  mk_world (list_set (store w) r d) (net w).

(** Two dicts that are equal as mappings from keys to values. *)
Definition dict_equiv (d1 d2 : dict) : Prop :=
  forall k, dict_get k d1 = dict_get k d2.

Definition key_lt (a b : item) : Prop := item_ltb a b = true.

(** Ascending by key, strictly. *)
Definition key_sorted (l : list item) : Prop := StronglySorted key_lt l.

(** [float] accepts the value. *)
Definition numeric (v : pyval) : Prop := exists x, py_float v = Ok x.

(** The value [float(v)] as a dict entry; [v] itself where [float] raises. *)
Definition coerce_value (v : pyval) : pyval :=
  match py_float v with
  | Ok x => PyFloat x
  | Raise _ => v
  end.

Definition coerce_item (i : item) : item := (fst i, coerce_value (snd i)).

(** The coercion loop on the entries it still has to visit: the entries
    it leaves behind and the exception it stops with, if any. *)
Fixpoint coerce_list (d : dict) : dict * option exn :=
  match d with
  | [] => ([], None)
  | (k, v) :: d' =>
      match py_float v with
      | Raise e => (d, Some e)
      | Ok x => let '(d'', r) := coerce_list d' in ((k, PyFloat x) :: d'', r)
      end
  end.

(** The exceptions of a failed conversion to [float]. *)
Definition conversion_error (e : exn) : Prop :=
  e = TypeError \/ e = ValueError \/ e = OverflowError.

(** The tags dict once [dev-id] is in: the caller's, or a new one. *)
Definition tags_after (w : world) (tags : option ref) (dev_id : string) : dict :=
  dict_set "dev-id" (PyStr dev_id)
    match tags with
    | Some r => deref w r
    | None => []
    end.

(** The fields dict as the coercion loop meets it: when the caller passes
    one object for both [fields] and [tags], [dev-id] is already in. *)
Definition fields_at_loop (w : world) (fields : ref) (tags : option ref)
    (dev_id : string) : dict :=
  match tags with
  | Some r => if Nat.eqb r fields then tags_after w tags dev_id else deref w fields
  | None => deref w fields
  end.

(** The object that holds the tags during the call. *)
Definition tags_ref (w : world) (tags : option ref) : ref :=
  match tags with
  | Some r => r
  | None => List.length (store w)
  end.

(** The world once the tags dict holds [dev-id]. *)
Definition with_tags (w : world) (tags : option ref) (dev_id : string) : world :=
  match tags with
  | Some r => set_dict w r (tags_after w tags dev_id)
  | None => mk_world (store w ++ [tags_after w tags dev_id])%list (net w)
  end.

Definition outcome (r : option exn) : result unit :=
  match r with
  | None => Ok tt
  | Some e => Raise e
  end.

(** The line the formatter builds from its three segments. *)
Definition line_of (measurement_name tag_str field_str : string) (n : Z) : string :=
  measurement_name ++ "," ++ tag_str ++ " " ++ field_str ++ " " ++ str_of_int n.

(** How many entries of [d] have the key [k]. *)
Definition count_key (k : string) (d : dict) : nat :=
  count_occ string_dec (keys d) k.

Fixpoint record_get (k : string) (r : record) : option outval :=
  match r with
  | [] => None
  | (k', v) :: r' => if String.eqb k k' then Some v else record_get k r'
  end.

(** Worlds and inputs of the examples. *)
Definition example_clock : clock :=
  mk_clock (PyFloat.round_quotient false 1762250000123456 1000000)
           (mk_datetime 2026 11 4 10 0 0 123456 0).

Definition example_world : world :=
  mk_world [ [("temp", PyInt 42)];
             [("site", PyStr "roof"); ("dev-id", PyStr "other")];
             [("pm25", PyStr " 1_0.5 "); ("ok", PyBool true); ("pm10", PyFloat (S754_zero false))] ]
           [].

Definition may_2021 : datetime := mk_datetime 2021 5 1 0 0 0 0 0.

(** Two records that are equal once the dict objects they refer to are
    read as mappings, each in its own world. *)
Definition outval_equiv (w1 w2 : world) (a b : outval) : Prop :=
  match a, b with
  | OStr s1, OStr s2 => s1 = s2
  | ODict r1, ODict r2 => dict_equiv (deref w1 r1) (deref w2 r2)
  | _, _ => False
  end.

Definition record_equiv (w1 : world) (rec1 : record) (w2 : world) (rec2 : record)
  : Prop :=
  Forall2 (fun x y => fst x = fst y /\ outval_equiv w1 w2 (snd x) (snd y))
          rec1 rec2.

(** The same dict in another insertion order. *)
Definition example_world_reordered : world :=
  mk_world [ [("temp", PyInt 42)];
             [("dev-id", PyStr "other"); ("site", PyStr "roof")];
             [("pm10", PyFloat (S754_zero false)); ("pm25", PyStr " 1_0.5 "); ("ok", PyBool true)] ]
           [].

(** Text in floating-point form: it shows a decimal point or an exponent,
    or it is one of [inf], [-inf] and [nan]; never a bare integer. *)
Definition float_mark (ch : ascii) : bool :=
  Ascii.eqb ch "." || Ascii.eqb ch "e" || Ascii.eqb ch "n".

Fixpoint float_text (s : string) : bool :=
  match s with
  | EmptyString => false
  | String ch s' => float_mark ch || float_text s'
  end.

Definition is_float (v : pyval) : Prop := exists x, v = PyFloat x.

(** A world whose fields dict holds a value [float] rejects. *)
Definition bad_world : world :=
  mk_world [ [("temp", PyInt 42); ("hum", PyStr "n/a"); ("co2", PyNone)] ] [].

(** A client whose server refuses the write, and one that takes it. *)
Definition failing_client : client :=
  mk_client (fun _ _ _ => Raise (ApiException "503 Service Unavailable")).

Definition accepting_client : client :=
  mk_client (fun _ _ _ => Ok tt).

Definition empty_world : world := mk_world [] [].

(** Following the words of the specification: [floor(unix_seconds * 1e9)]
    for the exact number of seconds from the epoch to the instant of [t],
    which is [epoch_us t / 10^6]. *)
Definition exact_ns (t : datetime) : Z := (epoch_us t * 10 ^ 9) / 10 ^ 6.

(** 2021-05-01T00:00:00.000001Z and 1969-12-31T23:59:59.999935Z. *)
Definition may_2021_us : datetime := mk_datetime 2021 5 1 0 0 0 1 0.
Definition dec_1969 : datetime := mk_datetime 1969 12 31 23 59 59 999935 0.

(** The last lines of [ord2ymd]: month and day of the [n]-th day of a year,
    counted from 0. *)
Definition month_day (n : Z) (leapyear : bool) : Z * Z :=
    let m := Z.shiftr (n + 50) 5 in
    let preceding :=
      nth (Z.to_nat m) DAYS_BEFORE_MONTH 0
      + (if (2 <? m) && leapyear then 1 else 0) in
    if n <? preceding then
      let m' := m - 1 in
      let preceding' :=
        preceding - (nth (Z.to_nat m') DAYS_IN_MONTH 0
                     + (if (m' =? 2) && leapyear then 1 else 0)) in
      (m', n - preceding' + 1)
    else (m, n - preceding + 1).

(** The check that [month_day] inverts [days_before_month]. *)
Definition month_day_ok (leapyear : bool) (n : nat) : bool :=
  let '(m, d) := month_day (Z.of_nat n) leapyear in
  (nth (Z.to_nat m) DAYS_BEFORE_MONTH 0 + (if (2 <? m) && leapyear then 1 else 0) + d
   =? Z.of_nat n + 1).


(** Tactics for closed instances. *)
Ltac solve_wf_dict :=
  unfold wf_dict; simpl;
  repeat (constructor; [simpl; intuition discriminate|]); constructor.

Ltac solve_valid_ref := unfold valid_ref; simpl; lia.

Ltac solve_dict_equiv :=
  let k := fresh "k" in
  intros k; simpl;
  repeat match goal with
         | |- context [String.eqb k ?s] =>
             destruct (String.eqb_spec k s); subst; simpl
         end;
  congruence.

Ltac solve_numeric :=
  repeat (constructor; [eexists; vm_compute; reflexivity|]); constructor.

(** ** Connection parameters *)

(** [os.getenv]: the value of a variable, [None] when it is not set. *)
Definition environ : Type := string -> option string.

(** What [parser.parse_args()] does for this parser with the arguments of
    the process: the four values of [--url], [--token], [--org] and
    [--bucket], or the exit of [argparse] (usage error, [--help]). *)
Inductive parse_outcome : Type :=
| Parsed (url token org bucket : string)
| ParserExit (code : Z).

(** How [get_influxdb_args] ends: with its tuple, or with the exit of the
    parser passing through it. *)
Inductive args_outcome : Type :=
| Returned (url token org bucket : option string)
| Exited (code : Z).

(** [f"{v}"] for a [str] or [None]. *)
Definition fstr (v : option string) : string :=
  match v with
  | Some s => s
  | None => "None"
  end.

(** The message of line 36. *)
Definition parameters_message (url token org bucket : option string) : string :=
  "Got InfluxDB parameters url=" ++ fstr url ++ ", token=" ++ fstr token
  ++ ", org=" ++ fstr org ++ ", bucket=" ++ fstr bucket.

(** [get_influxdb_args(env)]: its outcome and the messages it hands to
    [logging.info]. *)
Definition get_influxdb_args (os : environ) (argv : parse_outcome) (env : bool)
  : args_outcome * list string :=
  if env then
    let url := os "INFLUXDB_URL" in
    let token := os "INFLUXDB_TOKEN" in
    let org := os "INFLUXDB_ORG" in
    let bucket := os "INFLUXDB_BUCKET" in
    (Returned url token org bucket, [parameters_message url token org bucket])
  else
    match argv with
    | ParserExit code => (Exited code, [])
    | Parsed url token org bucket =>
        (Returned (Some url) (Some token) (Some org) (Some bucket),
         [parameters_message (Some url) (Some token) (Some org) (Some bucket)])
    end.

(** [needle] occurs in [hay]. *)
Definition occurs_in (needle hay : string) : Prop :=
  exists before after, hay = before ++ needle ++ after.

(** ** The example query *)

(** A record of a result table, as far as [test_query] reads it. *)
Record flux_record : Type := mk_flux_record {
  get_field : string;
  get_value : pyval
}.

(** A table is its [records]. *)
Definition flux_table : Type := list flux_record.

(** The query interface of the client: what [query_api.query] answers. *)
Record query_client : Type := mk_query_client {
  query_outcome : string -> result (list flux_table)
}.

Definition dq : string := String (ascii_of_nat 34) EmptyString.
Definition nl : string := String (ascii_of_nat 10) EmptyString.

(** The text of [q], lines 119-126. *)
Definition q : string :=
  nl ++ "    from(bucket: " ++ dq ++ "AapoTest" ++ dq ++ ")" ++ nl
  ++ "      |> range(start: 2021-05-01T00:00:00Z, stop: 2021-05-02T00:00:00Z)" ++ nl
  ++ "      |> filter(fn: (r) => r[" ++ dq ++ "_measurement" ++ dq ++ "] == "
  ++ dq ++ "aq" ++ dq ++ ")" ++ nl
  ++ "      |> filter(fn: (r) => r[" ++ dq ++ "_field" ++ dq ++ "] == "
  ++ dq ++ "pm10" ++ dq ++ " or r[" ++ dq ++ "_field" ++ dq ++ "] == "
  ++ dq ++ "pm25" ++ dq ++ ")" ++ nl
  ++ "      |> filter(fn: (r) => r[" ++ dq ++ "dev-id" ++ dq ++ "] == "
  ++ dq ++ "84:0D:8E:8F:51:6E" ++ dq ++ ")" ++ nl
  ++ "      |> yield(name: " ++ dq ++ "mean" ++ dq ++ ")" ++ nl
  ++ "    ".

(** Lines 131-133: a new [OrderedDict] with the one entry of the record. *)
Definition record_entry (r : flux_record) : dict :=
  dict_set (get_field r) (get_value r) [].

(** The inner loop, [results] being the list built so far. *)
Fixpoint records_loop (records : list flux_record) (results : list dict)
  : list dict :=
  match records with
  | [] => results
  | record :: rest => records_loop rest (results ++ [record_entry record])%list
  end.

(** The outer loop. *)
Fixpoint tables_loop (result : list flux_table) (results : list dict) : list dict :=
  match result with
  | [] => results
  | table :: rest => tables_loop rest (records_loop table results)
  end.

(** [test_query(client)]: what it returns or raises, and what it prints. *)
Definition test_query (cl : query_client) : result (list dict) * list string :=
  match query_outcome cl q with
  | Raise e => (Raise e, [])
  | Ok result => (Ok (tables_loop result []), ["Query done"])
  end.

(** Inputs of the examples. *)
Definition example_environ : environ :=
  fun name =>
    if String.eqb name "INFLUXDB_URL" then Some "http://localhost:8086"
    else if String.eqb name "INFLUXDB_TOKEN" then Some "s3cr3t"
    else if String.eqb name "INFLUXDB_BUCKET" then Some "iot"
    else None.

Definition example_tables : list flux_table :=
  [ [mk_flux_record "pm10" (PyFloat (S754_zero false));
     mk_flux_record "pm10" (PyInt 7)];
    [];
    [mk_flux_record "pm25" (PyInt 3)] ].

Definition example_query_client : query_client :=
  mk_query_client (fun _ => Ok example_tables).

Definition east_of_utc : datetime := mk_datetime 2021 5 1 3 0 0 0 10800000000.

Definition first_day_east : datetime := mk_datetime 1 1 1 0 0 0 0 3600000000.

(** A world with a tag whose key sorts before [dev-id]. *)
Definition tagged_world : world :=
  mk_world [ [("temp", PyInt 42)]; [("city", PyStr "Helsinki")] ] [].

Definition blank_world : world := mk_world [ []; [("site", PyStr "roof")] ] [].

Definition failing_query_client : query_client :=
  mk_query_client (fun _ => Raise (ApiException "401 Unauthorized")).

(** 2021-04-30T19:00:00-05:00, the instant of [east_of_utc] and of
    [may_2021]. *)
Definition west_of_utc : datetime := mk_datetime 2021 4 30 19 0 0 0 (-18000000000).

(** ** The domain of the statements *)

(** ASCII text: every character is below 128. *)
Definition ascii_text (s : string) : bool :=
  forallb (fun ch => (nat_of_ascii ch <? 128)%nat) (list_ascii_of_string s).

(** A value that is no [str], or a [str] of ASCII text. *)
Definition ascii_value (v : pyval) : Prop :=
  match v with
  | PyStr s => ascii_text s = true
  | _ => True
  end.

(** [sys.int_max_str_digits] as the interpreter starts with it: writing an
    [int] of more decimal digits raises [ValueError].  [py_str] is the
    text of a value inside that limit. *)
Definition int_max_str_digits : Z := 4300.

Definition within_str_limit (v : pyval) : Prop :=
  match v with
  | PyInt n => Z.abs n < 10 ^ int_max_str_digits
  | _ => True
  end.

(** A reading of the system clock: a double (53 bits) that is zero or
    finite and below [2^63] seconds. *)
Definition clock_reading (x : PyFloat.pyfloat) : Prop :=
  match x with
  | S754_zero _ => True
  | S754_finite _ m e => Zpos m < 2 ^ 53 /\ e <= 10
  | _ => False
  end.

(** The [timestamp] argument can be resolved: a given one converts to UTC
    (its date stays in the years 1..9999 there); without one, the clock is
    read. *)
Definition resolvable (c : clock) (timestamp : option datetime) : Prop :=
  match timestamp with
  | Some t => exists t', astimezone_utc t = Ok t'
  | None => clock_reading (time_time c)
  end.

(** The order of [str], in its own words: the first character that
    differs decides, and a proper prefix comes first. *)
Inductive str_lt : string -> string -> Prop :=
| str_lt_prefix ch s : str_lt EmptyString (String ch s)
| str_lt_head a b s t :
    (nat_of_ascii a < nat_of_ascii b)%nat -> str_lt (String a s) (String b t)
| str_lt_tail a s t : str_lt s t -> str_lt (String a s) (String a t).

(** Items in ascending order of their keys. *)
Definition ascending (l : list item) : Prop :=
  StronglySorted (fun a b => str_lt (fst a) (fst b)) l.

(** The double [x] is exactly the integer [n]. *)
Definition float_is_int (x : PyFloat.pyfloat) (n : Z) : Prop :=
  match x with
  | S754_zero _ => n = 0
  | S754_finite s m e =>
      (if s then - Zpos m else Zpos m) * 2 ^ Z.max e 0 = n * 2 ^ Z.max (- e) 0
  | _ => False
  end.

(** What the coercion makes of a value, said without [float] where that
    is short: a float stays as it is, [True] and [False] become 1.0 and
    0.0, an [int] below [2^53] becomes the double of the same value. *)
Definition coercion_of (old : pyval) (x : PyFloat.pyfloat) : Prop :=
  match old with
  | PyFloat y => x = y
  | PyBool b => float_is_int x (if b then 1 else 0)
  | PyInt n => Z.abs n < 2 ^ 53 -> float_is_int x n
  | _ => True
  end.

(** 9999-12-31T23:00:00-02:00 and 0001-01-01T00:00:00+01:00: their UTC
    dates are in the years 10000 and 0. *)
Definition last_day_west : datetime := mk_datetime 9999 12 31 23 0 0 0 (-7200000000).

(** 2021-04-30T19:00:00.250000-05:00. *)
Definition west_quarter_second : datetime :=
  mk_datetime 2021 4 30 19 0 0 250000 (-18000000000).

(** * Properties *)

(** ** The order of [str] *)

Section StringOrder.

Lemma ascii_compare_refl (a : ascii) : Ascii.compare a a = Eq.
Proof. unfold Ascii.compare. apply N.compare_refl. Qed.

Lemma ascii_compare_lt_trans (a b c : ascii) :
  Ascii.compare a b = Lt -> Ascii.compare b c = Lt -> Ascii.compare a c = Lt.
Proof.
  unfold Ascii.compare. rewrite !N.compare_lt_iff. apply N.lt_trans.
Qed.

Lemma string_compare_refl (s : string) : String.compare s s = Eq.
Proof.
  induction s as [|a s IH]; simpl; [reflexivity|].
  now rewrite ascii_compare_refl.
Qed.

Lemma string_compare_lt_trans (s1 s2 s3 : string) :
  String.compare s1 s2 = Lt -> String.compare s2 s3 = Lt ->
  String.compare s1 s3 = Lt.
Proof.
  revert s2 s3.
  induction s1 as [|a s1 IH]; intros [|b s2] [|c s3]; simpl; try congruence.
  destruct (Ascii.compare a b) eqn:Hab; try discriminate;
    destruct (Ascii.compare b c) eqn:Hbc; try discriminate; intros H1 H2.
  - apply Ascii.compare_eq_iff in Hab, Hbc. subst.
    rewrite ascii_compare_refl. eauto.
  - apply Ascii.compare_eq_iff in Hab. subst. now rewrite Hbc.
  - apply Ascii.compare_eq_iff in Hbc. subst. now rewrite Hab.
  - now rewrite (ascii_compare_lt_trans _ _ _ Hab Hbc).
Qed.

Lemma ltb_irrefl (s : string) : String.ltb s s = false.
Proof. unfold String.ltb. now rewrite string_compare_refl. Qed.

Lemma ltb_trans (s1 s2 s3 : string) :
  String.ltb s1 s2 = true -> String.ltb s2 s3 = true -> String.ltb s1 s3 = true.
Proof.
  unfold String.ltb. intros H1 H2.
  destruct (String.compare s1 s2) eqn:E1; try discriminate.
  destruct (String.compare s2 s3) eqn:E2; try discriminate.
  now rewrite (string_compare_lt_trans _ _ _ E1 E2).
Qed.

Lemma ltb_total (s1 s2 : string) :
  String.ltb s1 s2 = false -> s1 <> s2 -> String.ltb s2 s1 = true.
Proof.
  unfold String.ltb. rewrite (String.compare_antisym s1 s2).
  destruct (String.compare s2 s1) eqn:E; simpl; try congruence.
  apply String.compare_eq_iff in E. congruence.
Qed.

Lemma ltb_asym (s1 s2 : string) :
  String.ltb s1 s2 = true -> String.ltb s2 s1 = false.
Proof.
  intros H. destruct (String.ltb s2 s1) eqn:E; [|reflexivity].
  pose proof (ltb_trans _ _ _ H E) as F. now rewrite ltb_irrefl in F.
Qed.

(** [String.ltb] is the order of [str]. *)
Lemma ascii_compare_lt a b :
  Ascii.compare a b = Lt -> (nat_of_ascii a < nat_of_ascii b)%nat.
Proof.
  unfold Ascii.compare. rewrite N.compare_lt_iff. unfold nat_of_ascii. lia.
Qed.

Lemma ascii_compare_eq a b : Ascii.compare a b = Eq -> a = b.
Proof.
  unfold Ascii.compare. rewrite N.compare_eq_iff. intros H.
  rewrite <- (ascii_N_embedding a), <- (ascii_N_embedding b). now rewrite H.
Qed.

Lemma ltb_str_lt s : forall t, String.ltb s t = true -> str_lt s t.
Proof.
  unfold String.ltb.
  induction s as [|a s IH]; intros [|b t]; simpl; try discriminate.
  - intros _. constructor.
  - destruct (Ascii.compare a b) eqn:E.
    + apply ascii_compare_eq in E. subst b. intros H. apply str_lt_tail. now apply IH.
    + intros _. apply str_lt_head. now apply ascii_compare_lt.
    + discriminate.
Qed.

End StringOrder.

(** ** The calendar *)

Section Calendar.

Lemma month_day_table leapyear :
  forallb (month_day_ok leapyear) (seq 0 366) = true.
Proof. destruct leapyear; vm_compute; reflexivity. Qed.

Lemma month_day_spec n leapyear :
  0 <= n < 366 ->
  let '(m, d) := month_day n leapyear in
  nth (Z.to_nat m) DAYS_BEFORE_MONTH 0 + (if (2 <? m) && leapyear then 1 else 0) + d
  = n + 1.
Proof.
  intros Hn.
  pose proof (month_day_table leapyear) as H.
  rewrite forallb_forall in H.
  specialize (H (Z.to_nat n)).
  unfold month_day_ok in H. rewrite Z2Nat.id in H by lia.
  destruct (month_day n leapyear) as [m d].
  apply Z.eqb_eq. apply H. apply in_seq. lia.
Qed.

Lemma year_days n400 n100 n4 n1 :
  0 <= n100 <= 3 -> 0 <= n4 <= 24 -> 0 <= n1 <= 3 ->
  days_before_year (n400 * 400 + 1 + n100 * 100 + n4 * 4 + n1)
  = 146097 * n400 + 36524 * n100 + 1461 * n4 + 365 * n1.
Proof.
  intros H1 H2 H3. unfold days_before_year.
  replace (n400 * 400 + 1 + n100 * 100 + n4 * 4 + n1 - 1)
    with (n400 * 400 + n100 * 100 + n4 * 4 + n1) by lia.
  assert (E4 : (n400 * 400 + n100 * 100 + n4 * 4 + n1) / 4 = 100 * n400 + 25 * n100 + n4).
  { symmetry. apply (Z.div_unique _ 4 _ n1); lia. }
  assert (E100 : (n400 * 400 + n100 * 100 + n4 * 4 + n1) / 100 = 4 * n400 + n100).
  { symmetry. apply (Z.div_unique _ 100 _ (n4 * 4 + n1)); lia. }
  assert (E400 : (n400 * 400 + n100 * 100 + n4 * 4 + n1) / 400 = n400).
  { symmetry. apply (Z.div_unique _ 400 _ (n100 * 100 + n4 * 4 + n1)); lia. }
  rewrite E4, E100, E400. lia.
Qed.

Lemma is_leap_flag n400 n100 n4 n1 :
  0 <= n100 <= 3 -> 0 <= n4 <= 24 -> 0 <= n1 <= 3 ->
  is_leap (n400 * 400 + 1 + n100 * 100 + n4 * 4 + n1)
  = (n1 =? 3) && (negb (n4 =? 24) || (n100 =? 3)).
Proof.
  intros H1 H2 H3. unfold is_leap.
  set (y := n400 * 400 + 1 + n100 * 100 + n4 * 4 + n1).
  assert (M4 : y mod 4 = (1 + n1) mod 4).
  { unfold y. replace (n400 * 400 + 1 + n100 * 100 + n4 * 4 + n1)
      with ((1 + n1) + (n400 * 100 + n100 * 25 + n4) * 4) by lia.
    apply Z.mod_add. lia. }
  assert (M100 : y mod 100 = (1 + n4 * 4 + n1) mod 100).
  { unfold y. replace (n400 * 400 + 1 + n100 * 100 + n4 * 4 + n1)
      with ((1 + n4 * 4 + n1) + (n400 * 4 + n100) * 100) by lia.
    apply Z.mod_add. lia. }
  assert (M400 : y mod 400 = (1 + n100 * 100 + n4 * 4 + n1) mod 400).
  { unfold y. replace (n400 * 400 + 1 + n100 * 100 + n4 * 4 + n1)
      with ((1 + n100 * 100 + n4 * 4 + n1) + n400 * 400) by lia.
    apply Z.mod_add. lia. }
  rewrite M4, M100, M400.
  destruct (Z.eqb_spec n1 3) as [->|N1].
  - change ((1 + 3) mod 4 =? 0) with true. cbn [andb].
    destruct (Z.eqb_spec n4 24) as [->|N4].
    + change ((1 + 24 * 4 + 3) mod 100 =? 0) with true. cbn [negb orb].
      destruct (Z.eqb_spec n100 3) as [->|N100]; [reflexivity|].
      apply Z.eqb_neq. rewrite Z.mod_small by lia. lia.
    + cbn [negb orb].
      replace ((1 + n4 * 4 + 3) mod 100 =? 0) with false; [reflexivity|].
      symmetry. apply Z.eqb_neq. rewrite Z.mod_small by lia. lia.
  - replace ((1 + n1) mod 4 =? 0) with false; [reflexivity|].
    symmetry. apply Z.eqb_neq. rewrite Z.mod_small by lia. lia.
Qed.

Lemma ymd2ord_ord2ymd n :
  let '(y, m, d) := ord2ymd n in ymd2ord y m d = n.
Proof.
  unfold ord2ymd.
  pose proof (Z.div_mod (n - 1) DI400Y ltac:(discriminate)) as E400.
  pose proof (Z.mod_pos_bound (n - 1) DI400Y ltac:(reflexivity)) as B400.
  set (n400 := (n - 1) / DI400Y) in *. set (r400 := (n - 1) mod DI400Y) in *.
  pose proof (Z.div_mod r400 DI100Y ltac:(discriminate)) as E100.
  pose proof (Z.mod_pos_bound r400 DI100Y ltac:(reflexivity)) as B100.
  set (n100 := r400 / DI100Y) in *. set (r100 := r400 mod DI100Y) in *.
  pose proof (Z.div_mod r100 DI4Y ltac:(discriminate)) as E4.
  pose proof (Z.mod_pos_bound r100 DI4Y ltac:(reflexivity)) as B4.
  set (n4 := r100 / DI4Y) in *. set (r4 := r100 mod DI4Y) in *.
  pose proof (Z.div_mod r4 365 ltac:(discriminate)) as E1.
  pose proof (Z.mod_pos_bound r4 365 ltac:(reflexivity)) as B1.
  set (n1 := r4 / 365) in *. set (d := r4 mod 365) in *.
  unfold DI400Y, DI100Y, DI4Y in *.
  assert (R100 : 0 <= n100 <= 4) by lia.
  assert (R4 : 0 <= n4 <= 24) by lia.
  assert (R1 : 0 <= n1 <= 4) by lia.
  destruct (Z.eqb_spec n1 4) as [N1|N1]; cbn [orb].
  - assert (n100 <= 3) by lia. assert (n4 <= 23) by lia.
    unfold ymd2ord, days_before_month.
    replace (n400 * 400 + 1 + n100 * 100 + n4 * 4 + n1 - 1)
      with (n400 * 400 + 1 + n100 * 100 + n4 * 4 + 3) by lia.
    rewrite year_days, is_leap_flag by lia.
    replace (n4 =? 24) with false by (symmetry; apply Z.eqb_neq; lia).
    change (nth (Z.to_nat 12) DAYS_BEFORE_MONTH 0) with 334.
    change ((2 <? 12) && ((3 =? 3) && (negb false || (n100 =? 3)))) with true.
    lia.
  - destruct (Z.eqb_spec n100 4) as [N100|N100].
    + assert (n4 = 0 /\ n1 = 0 /\ d = 0) as (-> & -> & Hd) by lia.
      unfold ymd2ord, days_before_month.
      replace (n400 * 400 + 1 + n100 * 100 + 0 * 4 + 0 - 1)
        with (n400 * 400 + 1 + 3 * 100 + 24 * 4 + 3) by lia.
      rewrite year_days, is_leap_flag by lia.
      change (nth (Z.to_nat 12) DAYS_BEFORE_MONTH 0) with 334.
      change ((2 <? 12) && ((3 =? 3) && (negb (24 =? 24) || (3 =? 3)))) with true.
      lia.
    + pose proof (month_day_spec d ((n1 =? 3) && (negb (n4 =? 24) || (n100 =? 3)))
                    ltac:(lia)) as Hmd.
      unfold month_day in Hmd.
      set (leapyear := (n1 =? 3) && (negb (n4 =? 24) || (n100 =? 3))) in *.
      set (y := n400 * 400 + 1 + n100 * 100 + n4 * 4 + n1).
      assert (Hy : days_before_year y = 146097 * n400 + 36524 * n100 + 1461 * n4 + 365 * n1)
        by (apply year_days; lia).
      assert (Hl : is_leap y = leapyear) by (apply is_leap_flag; lia).
      cbv zeta in Hmd.
      destruct (d <? _) in *; unfold ymd2ord, days_before_month;
        rewrite Hy, Hl; lia.
Qed.

(** Conversion to UTC keeps the instant and leaves a zero offset. *)
Lemma astimezone_utc_instant t t' :
  astimezone_utc t = Ok t' -> epoch_us t' = epoch_us t /\ utcoffset t' = 0.
Proof.
  unfold astimezone_utc.
  set (u := local_us t - utcoffset t).
  destruct ((0 <? u / US_PER_DAY + 1) && (u / US_PER_DAY + 1 <=? MAXORDINAL));
    [|discriminate].
  pose proof (ymd2ord_ord2ymd (u / US_PER_DAY + 1)) as Hr.
  destruct (ord2ymd (u / US_PER_DAY + 1)) as [[y m] d].
  intros [= <-]. split; [|reflexivity].
  unfold epoch_us, local_us at 1. cbn [year month day hour minute second microsecond utcoffset].
  rewrite Hr. fold u. unfold US_PER_DAY in *.
  Z.to_euclidean_division_equations. lia.
Qed.

End Calendar.

(** ** Exact cases of the float arithmetic *)

Section FloatExact.

Lemma digits2_pos_size p : digits2_pos p = Pos.size p.
Proof. induction p; simpl; congruence. Qed.

Lemma Zdigits2_log2 m : 0 < m -> Zdigits2 m = Z.log2 m + 1.
Proof.
  destruct m as [|p|p]; try lia. intros _. simpl.
  rewrite digits2_pos_size. destruct p; simpl; lia.
Qed.

Lemma iter_pos_nat {A} (f : A -> A) p x :
  iter_pos f p x = Nat.iter (Pos.to_nat p) f x.
Proof.
  revert x. induction p as [p IH|p IH|]; intros x; cbn [iter_pos].
  - rewrite !IH. rewrite Pos2Nat.inj_xI.
    replace (S (2 * Pos.to_nat p)) with (Pos.to_nat p + (Pos.to_nat p + 1))%nat by lia.
    rewrite !Nat.iter_add. reflexivity.
  - rewrite !IH. rewrite Pos2Nat.inj_xO.
    replace (2 * Pos.to_nat p)%nat with (Pos.to_nat p + Pos.to_nat p)%nat by lia.
    now rewrite Nat.iter_add.
  - reflexivity.
Qed.

Lemma shr_1_even k :
  0 <= k -> shr_1 (Build_shr_record (2 * k) false false) = Build_shr_record k false false.
Proof. destruct k as [|p|p]; try lia; reflexivity. Qed.

Lemma iter_shr_1_exact n k :
  0 <= k ->
  Nat.iter n shr_1 (Build_shr_record (k * 2 ^ Z.of_nat n) false false)
  = Build_shr_record k false false.
Proof.
  intros Hk. induction n as [|n IH].
  - simpl. now rewrite Z.mul_1_r.
  - rewrite Nat.iter_succ_r.
    rewrite Nat2Z.inj_succ, Z.pow_succ_r by lia.
    replace (k * (2 * 2 ^ Z.of_nat n)) with (2 * (k * 2 ^ Z.of_nat n)) by lia.
    rewrite shr_1_even by (apply Z.mul_nonneg_nonneg; [lia|apply Z.pow_nonneg; lia]).
    exact IH.
Qed.

Lemma shr_exact k e n :
  0 <= k -> 0 <= n ->
  shr (Build_shr_record (k * 2 ^ n) false false) e n
  = (Build_shr_record k false false, e + n).
Proof.
  intros Hk Hn. destruct n as [|p|p]; try lia.
  - simpl. now rewrite Z.mul_1_r, Z.add_0_r.
  - unfold shr. rewrite iter_pos_nat.
    rewrite <- (positive_nat_Z p) at 1. now rewrite iter_shr_1_exact.
Qed.

Lemma binary_round_aux_exact sgn M E :
  0 < M ->
  52 <= Z.log2 M ->
  M mod 2 ^ (Z.log2 M - 52) = 0 ->
  -1074 <= E + Z.log2 M - 52 <= 971 ->
  binary_round_aux 53 1024 sgn M E loc_Exact
  = S754_finite sgn (Z.to_pos (M / 2 ^ (Z.log2 M - 52))) (E + (Z.log2 M - 52)).
Proof.
  intros HM HL Hdiv HE.
  set (n := Z.log2 M - 52) in *.
  set (k := M / 2 ^ n).
  assert (Hpow : 0 < 2 ^ n) by (apply Z.pow_pos_nonneg; lia).
  assert (HMk : M = k * 2 ^ n).
  { unfold k. rewrite Z.mul_comm. apply Z.div_exact; lia. }
  assert (Hk : 0 < k) by nia.
  assert (Hlk : Z.log2 k = 52).
  { assert (Z.log2 M = n + Z.log2 k).
    { rewrite HMk at 1. rewrite Z.log2_mul_pow2; lia. }
    unfold n in *. lia. }
  unfold binary_round_aux, shr_fexp.
  rewrite (Zdigits2_log2 M HM).
  assert (Hf1 : fexp 53 1024 (Z.log2 M + 1 + E) - E = n).
  { unfold fexp, emin, n. lia. }
  rewrite Hf1. simpl shr_record_of_loc.
  rewrite HMk at 1. rewrite shr_exact by lia.
  simpl shr_m. simpl loc_of_shr_record. simpl round_nearest_even.
  rewrite (Zdigits2_log2 k Hk), Hlk.
  assert (Hf2 : fexp 53 1024 (52 + 1 + (E + n)) - (E + n) = 0).
  { unfold fexp, emin. lia. }
  rewrite Hf2. simpl shr. simpl shr_m.
  destruct k as [|p|p]; try lia.
  replace (E + n <=? 1024 - 53) with true by (symmetry; apply Z.leb_le; lia).
  reflexivity.
Qed.

Lemma pow2_div a x y :
  0 <= y <= x -> a * 2 ^ x / 2 ^ y = a * 2 ^ (x - y).
Proof.
  intros H. replace x with ((x - y) + y) at 1 by lia.
  rewrite Z.pow_add_r by lia. rewrite Z.mul_assoc.
  apply Z.div_mul. apply Z.pow_nonzero; lia.
Qed.

Lemma pow2_mod a x y :
  0 <= y <= x -> (a * 2 ^ x) mod 2 ^ y = 0.
Proof.
  intros H. replace x with ((x - y) + y) by lia.
  rewrite Z.pow_add_r by lia. rewrite Z.mul_assoc.
  apply Z.mod_mul. apply Z.pow_nonzero; lia.
Qed.

Lemma div_eucl_mul a b : b <> 0 -> Z.div_eucl (a * b) b = (a, 0).
Proof.
  intros Hb. pose proof (Z.div_mul a b Hb) as Hd.
  pose proof (Z.mod_mul a b Hb) as Hm.
  unfold Z.div, Z.modulo in *. destruct (Z.div_eucl (a * b) b). congruence.
Qed.

Lemma log2_mul_le a b k :
  0 < a -> 0 < b -> b < 2 ^ k -> 0 <= k -> Z.log2 (a * b) <= Z.log2 a + k.
Proof.
  intros Ha Hb Hk Hk0.
  assert (H : a * b < 2 ^ (Z.log2 a + 1 + k)).
  { rewrite Z.pow_add_r by (pose proof (Z.log2_nonneg a); lia).
    pose proof (Z.log2_spec a Ha) as [_ H2].
    rewrite <- Z.add_1_r in H2.
    apply Z.mul_lt_mono_nonneg; lia. }
  apply Z.log2_lt_pow2 in H; lia.
Qed.

(** The float of a whole number [a] of seconds:
    [(a * 10**6) / 10**6] is exactly [a]. *)
Lemma round_quotient_whole neg a :
  0 < a -> a < 2 ^ 53 ->
  PyFloat.round_quotient neg (a * 1000000) 1000000
  = S754_finite neg (Z.to_pos (a * 2 ^ (52 - Z.log2 a))) (Z.log2 a - 52).
Proof.
  intros Ha Hlt.
  assert (Hla : 0 <= Z.log2 a <= 52).
  { split; [apply Z.log2_nonneg|]. apply Z.log2_lt_pow2 in Hlt; lia. }
  set (L1 := Z.log2 (a * 1000000)).
  assert (HL1 : Z.log2 a <= L1 <= Z.log2 a + 20).
  { unfold L1. split.
    - apply Z.log2_le_mono. nia.
    - apply log2_mul_le; lia. }
  unfold PyFloat.round_quotient.
  assert (Hcore : SFdiv_core_binary PyFloat.prec PyFloat.emax
                    (a * 1000000) 0 1000000 0
                  = (a * 2 ^ (72 - L1), L1 - 72, loc_Exact)).
  { unfold SFdiv_core_binary.
    rewrite (Zdigits2_log2 (a * 1000000)) by lia. fold L1.
    change (Zdigits2 1000000) with 20.
    assert (He : Z.min (fexp PyFloat.prec PyFloat.emax (L1 + 1 + 0 - (20 + 0))) (0 - 0)
                 = L1 - 72).
    { unfold fexp, emin, PyFloat.prec, PyFloat.emax. lia. }
    rewrite He.
    replace (0 - 0 - (L1 - 72)) with (72 - L1) by lia.
    destruct (72 - L1) as [|p|p] eqn:Hp; try lia.
    - rewrite div_eucl_mul by lia. now rewrite Z.mul_1_r.
    - rewrite Z.shiftl_mul_pow2 by lia.
      replace (a * 1000000 * 2 ^ Z.pos p) with (a * 2 ^ Z.pos p * 1000000) by lia.
      rewrite div_eucl_mul by lia. reflexivity. }
  destruct (a * 1000000) as [|q|q] eqn:Hq; try lia.
  rewrite Hcore.
  rewrite binary_round_aux_exact.
  - rewrite Z.log2_mul_pow2 by lia.
    replace (72 - L1 + Z.log2 a - 52) with (Z.log2 a + 20 - L1) by lia.
    rewrite pow2_div by lia. f_equal; [f_equal; f_equal; f_equal; lia|lia].
  - apply Z.mul_pos_pos; [lia|apply Z.pow_pos_nonneg; lia].
  - rewrite Z.log2_mul_pow2 by lia; lia.
  - rewrite Z.log2_mul_pow2 by lia; apply pow2_mod; lia.
  - rewrite Z.log2_mul_pow2 by lia; lia.
Qed.

Lemma of_int_1e9 :
  PyFloat.of_int (10 ^ 9) = Ok (S754_finite false 8388608000000000 (-23)).
Proof. reflexivity. Qed.

(** Times [10**9] and truncated: exact as long as [a * 5^9] fits in
    53 bits. *)
Lemma to_nanoseconds_whole neg a :
  0 < a -> a * 1953125 < 2 ^ 53 ->
  to_nanoseconds
    (S754_finite neg (Z.to_pos (a * 2 ^ (52 - Z.log2 a))) (Z.log2 a - 52))
  = Ok (if neg then - (a * 10 ^ 9) else a * 10 ^ 9).
Proof.
  intros Ha Hlt.
  set (b := a * 1953125) in *.
  assert (Hb : 0 < b) by (unfold b; lia).
  assert (Hla : 0 <= Z.log2 a) by apply Z.log2_nonneg.
  assert (Hlb : Z.log2 a + 20 <= Z.log2 b <= 52).
  { split.
    - unfold b. replace (Z.log2 a + 20) with (Z.log2 (a * 2 ^ 20))
        by (rewrite Z.log2_mul_pow2; lia).
      apply Z.log2_le_mono. lia.
    - apply Z.log2_lt_pow2 in Hlt; lia. }
  assert (Hm1 : 0 < a * 2 ^ (52 - Z.log2 a))
    by (apply Z.mul_pos_pos; [lia|apply Z.pow_pos_nonneg; lia]).
  unfold to_nanoseconds, float_mul_int. rewrite of_int_1e9.
  cbn [bind_result]. unfold PyFloat.mul, SFmul.
  rewrite Pos2Z.inj_mul, Z2Pos.id by assumption.
  assert (HM : a * 2 ^ (52 - Z.log2 a) * 8388608000000000 = b * 2 ^ (84 - Z.log2 a)).
  { replace (84 - Z.log2 a) with ((52 - Z.log2 a) + 32) by lia.
    rewrite Z.pow_add_r by lia. unfold b.
    change 8388608000000000 with (1953125 * 2 ^ 32). ring. }
  rewrite HM.
  assert (HlM : Z.log2 (b * 2 ^ (84 - Z.log2 a)) = 84 - Z.log2 a + Z.log2 b)
    by (apply Z.log2_mul_pow2; lia).
  rewrite binary_round_aux_exact.
  - rewrite HlM.
    replace (84 - Z.log2 a + Z.log2 b - 52) with (Z.log2 b + 32 - Z.log2 a) by lia.
    rewrite pow2_div by lia.
    replace (84 - Z.log2 a - (Z.log2 b + 32 - Z.log2 a)) with (52 - Z.log2 b) by lia.
    replace (Z.log2 a - 52 + -23 + (Z.log2 b + 32 - Z.log2 a))
      with (Z.log2 b - 43) by lia.
    assert (Hmb : 0 < b * 2 ^ (52 - Z.log2 b))
      by (apply Z.mul_pos_pos; [lia|apply Z.pow_pos_nonneg; lia]).
    unfold PyFloat.to_int. rewrite Z2Pos.id by assumption.
    assert (Hval : match Z.log2 b - 43 with
                   | Zneg p => Z.shiftr (b * 2 ^ (52 - Z.log2 b)) (Zpos p)
                   | _ => Z.shiftl (b * 2 ^ (52 - Z.log2 b)) (Z.log2 b - 43)
                   end = a * 10 ^ 9).
    { assert (Hab : a * 10 ^ 9 = b * 2 ^ 9) by (unfold b; lia).
      rewrite Hab.
      destruct (Z.log2 b - 43) as [|p|p] eqn:Hp.
      - rewrite Z.shiftl_mul_pow2 by lia. rewrite Z.mul_1_r.
        f_equal. f_equal. lia.
      - rewrite Z.shiftl_mul_pow2 by lia. rewrite <- Z.mul_assoc, <- Z.pow_add_r by lia.
        f_equal. f_equal. lia.
      - rewrite Z.shiftr_div_pow2 by lia. rewrite pow2_div by lia.
        f_equal. f_equal. lia. }
    rewrite Hval. now rewrite xorb_false_r.
  - apply Z.mul_pos_pos; [lia|apply Z.pow_pos_nonneg; lia].
  - rewrite HlM. lia.
  - rewrite HlM. apply pow2_mod. lia.
  - rewrite HlM. lia.
Qed.

End FloatExact.

(** ** The float arithmetic never fails on a timestamp *)

Section FloatTotal.

Lemma shr_m_shr_1 x : 0 <= shr_m x -> shr_m (shr_1 x) = Z.div2 (shr_m x).
Proof.
  destruct x as [m r s]. simpl. destruct m as [|[p|p|]|p]; simpl; intros H; try lia; reflexivity.
Qed.

Lemma shr_m_iter n x :
  0 <= shr_m x -> shr_m (Nat.iter n shr_1 x) = shr_m x / 2 ^ Z.of_nat n.
Proof.
  intros Hx. induction n as [|n IH].
  - simpl. now rewrite Z.div_1_r.
  - rewrite Nat.iter_succ, shr_m_shr_1.
    + rewrite IH, Z.div2_div, Z.div_div by (try apply Z.pow_pos_nonneg; lia).
      f_equal. rewrite Nat2Z.inj_succ, Z.pow_succ_r by lia. lia.
    + rewrite IH. apply Z.div_pos; [lia|apply Z.pow_pos_nonneg; lia].
Qed.

Lemma shr_spec x e n :
  0 <= shr_m x ->
  shr_m (fst (shr x e n)) = shr_m x / 2 ^ Z.max n 0
  /\ snd (shr x e n) = e + Z.max n 0.
Proof.
  intros Hx. destruct n as [|p|p]; simpl.
  - rewrite Z.div_1_r. split; [reflexivity|lia].
  - rewrite iter_pos_nat, shr_m_iter by assumption.
    rewrite positive_nat_Z. split; reflexivity.
  - rewrite Z.div_1_r. split; [reflexivity|lia].
Qed.

Lemma shr_m_of_loc m l : shr_m (shr_record_of_loc m l) = m.
Proof. destruct l as [|[]]; reflexivity. Qed.

Lemma round_nearest_even_bounds m l :
  m <= round_nearest_even m l <= m + 1.
Proof.
  unfold round_nearest_even. destruct l as [|[]]; try lia.
  destruct (Z.even m); lia.
Qed.

Lemma Zdigits2_le m K : 0 <= m < 2 ^ K -> 0 <= K -> 0 <= Zdigits2 m <= K.
Proof.
  intros [H0 H1] HK. destruct (Z.eq_dec m 0) as [->|Hm]; [simpl; lia|].
  rewrite Zdigits2_log2 by lia.
  pose proof (Z.log2_nonneg m). apply Z.log2_lt_pow2 in H1; lia.
Qed.

(** Rounding a non-negative mantissa below [2^K] never gives a NaN, and
    gives no infinity as long as the exponent is low enough. *)
Lemma binary_round_aux_finite sgn M E l K :
  0 <= M < 2 ^ K -> 0 <= K ->
  Z.max E (-1074) + 2 * K + 1 <= 971 ->
  binary_round_aux 53 1024 sgn M E l = S754_zero sgn
  \/ exists m e,
       binary_round_aux 53 1024 sgn M E l = S754_finite sgn m e
       /\ Zpos m <= 2 ^ K
       /\ e <= Z.max E (-1074) + 2 * K + 1.
Proof.
  intros HM HK HE.
  unfold binary_round_aux, shr_fexp.
  pose proof (Zdigits2_le M K HM HK) as Hd.
  set (n1 := fexp 53 1024 (Zdigits2 M + E) - E).
  pose proof (shr_spec (shr_record_of_loc M l) E n1) as H1.
  rewrite shr_m_of_loc in H1. specialize (H1 ltac:(lia)).
  destruct (shr (shr_record_of_loc M l) E n1) as [mrs' e'].
  cbn [fst snd] in H1. destruct H1 as [Hm1 He1].
  assert (Hp1 : 0 < 2 ^ Z.max n1 0) by (apply Z.pow_pos_nonneg; lia).
  assert (Hm1b : 0 <= shr_m mrs' <= M).
  { rewrite Hm1. split; [apply Z.div_pos; lia|].
    apply Z.div_le_upper_bound; [lia|]. nia. }
  set (r := round_nearest_even (shr_m mrs') (loc_of_shr_record mrs')).
  pose proof (round_nearest_even_bounds (shr_m mrs') (loc_of_shr_record mrs')) as Hr.
  fold r in Hr.
  assert (Hrb : 0 <= r < 2 ^ (K + 1)).
  { split; [lia|]. rewrite Z.pow_add_r by lia. change (2 ^ 1) with 2. lia. }
  pose proof (Zdigits2_le r (K + 1) Hrb ltac:(lia)) as Hd2.
  set (n2 := fexp 53 1024 (Zdigits2 r + e') - e').
  pose proof (shr_spec (shr_record_of_loc r loc_Exact) e' n2) as H2.
  rewrite shr_m_of_loc in H2. specialize (H2 ltac:(lia)).
  destruct (shr (shr_record_of_loc r loc_Exact) e' n2) as [mrs'' e''].
  cbn [fst snd] in H2. destruct H2 as [Hm2 He2].
  assert (Hp2 : 0 < 2 ^ Z.max n2 0) by (apply Z.pow_pos_nonneg; lia).
  assert (Hm2b : 0 <= shr_m mrs'' <= r).
  { rewrite Hm2. split; [apply Z.div_pos; lia|].
    apply Z.div_le_upper_bound; [lia|]. nia. }
  assert (Hn1 : e' <= Z.max E (-1074) + K).
  { rewrite He1. unfold n1, fexp, emin. lia. }
  assert (Hn2 : e'' <= Z.max E (-1074) + 2 * K + 1).
  { rewrite He2. unfold n2, fexp, emin. lia. }
  destruct (shr_m mrs'') as [|m|m] eqn:Hm; [now left| |lia].
  right. exists m, e''.
  replace (e'' <=? 1024 - 53) with true by (symmetry; apply Z.leb_le; lia).
  split; [reflexivity|]. split; [|assumption].
  assert (r <= 2 ^ K + 1 - 1) by lia. lia.
Qed.

Lemma round_quotient_finite neg n :
  0 <= n < 2 ^ 58 ->
  PyFloat.round_quotient neg n 1000000 = S754_zero neg
  \/ exists m e,
       PyFloat.round_quotient neg n 1000000 = S754_finite neg m e
       /\ Zpos m <= 2 ^ 73 /\ e <= 147.
Proof.
  intros Hn. unfold PyFloat.round_quotient.
  destruct n as [|p|p]; [now left| |lia].
  pose proof (Zdigits2_le (Zpos p) 58 Hn ltac:(lia)) as Hd.
  assert (Hd1 : 1 <= Zdigits2 (Zpos p)) by (simpl; lia).
  unfold SFdiv_core_binary.
  change (Zdigits2 1000000) with 20.
  set (d1 := Zdigits2 (Zpos p)) in *.
  assert (He : Z.min (fexp PyFloat.prec PyFloat.emax (d1 + 0 - (20 + 0))) (0 - 0)
               = d1 - 73).
  { unfold fexp, emin, PyFloat.prec, PyFloat.emax. lia. }
  rewrite He.
  replace (0 - 0 - (d1 - 73)) with (73 - d1) by lia.
  destruct (73 - d1) as [|k|k] eqn:Hk; try lia.
  rewrite Z.shiftl_mul_pow2 by lia.
  assert (Hm' : 0 <= Zpos p * 2 ^ Zpos k < 2 ^ 73).
  { split; [apply Z.mul_nonneg_nonneg; [lia|apply Z.pow_nonneg; lia]|].
    replace 73 with (d1 + Zpos k) by lia. rewrite Z.pow_add_r by lia.
    apply Z.mul_lt_mono_pos_r; [apply Z.pow_pos_nonneg; lia|].
    unfold d1. rewrite Zdigits2_log2 by lia.
    pose proof (Z.log2_spec (Zpos p) ltac:(lia)) as [_ H].
    now rewrite <- Z.add_1_r in H. }
  set (m' := Zpos p * 2 ^ Zpos k) in *.
  pose proof (Z.div_pos m' 1000000 ltac:(lia) ltac:(lia)) as Hq0.
  assert (Hq1 : m' / 1000000 <= m')
    by (apply Z.div_le_upper_bound; lia).
  unfold Z.div in Hq0, Hq1.
  destruct (Z.div_eucl m' 1000000) as [q r]. cbn [fst] in Hq0, Hq1.
  destruct (binary_round_aux_finite neg q (d1 - 73)
              (new_location 1000000 r) 73 ltac:(lia) ltac:(lia) ltac:(lia))
    as [H|(m & e & H & Hm & Hle)].
  - now left.
  - right. exists m, e. split; [exact H|]. split; [exact Hm|lia].
Qed.

Lemma to_nanoseconds_returns f neg :
  f = S754_zero neg
  \/ (exists m e, f = S754_finite neg m e /\ Zpos m <= 2 ^ 73 /\ e <= 147) ->
  exists n, to_nanoseconds f = Ok n.
Proof.
  intros Hf. unfold to_nanoseconds, float_mul_int. rewrite of_int_1e9.
  cbn [bind_result].
  destruct Hf as [->|(m & e & -> & Hm & He)].
  - eexists. reflexivity.
  - unfold PyFloat.mul, SFmul.
    destruct (binary_round_aux_finite (xorb neg false)
                (Zpos (m * 8388608000000000)) (e + -23) loc_Exact 127)
      as [H|(m2 & e2 & H & _)].
    + rewrite Pos2Z.inj_mul. split; [lia|].
      assert (H1 : Zpos m * 8388608000000000 <= 2 ^ 73 * 8388608000000000)
        by (apply Z.mul_le_mono_nonneg_r; lia).
      assert (H2 : 2 ^ 73 * 8388608000000000 < 2 ^ 127) by reflexivity.
      lia.
    + lia.
    + lia.
    + unfold PyFloat.prec, PyFloat.emax. rewrite H. eexists. reflexivity.
    + unfold PyFloat.prec, PyFloat.emax. rewrite H. eexists. reflexivity.
Qed.

Lemma timestamp_ns_returns us :
  Z.abs us < 2 ^ 58 ->
  exists n, bind_result (PyFloat.int_true_div us (10 ^ 6)) to_nanoseconds = Ok n.
Proof.
  intros Hus. change (10 ^ 6) with 1000000. unfold PyFloat.int_true_div.
  change (1000000 =? 0) with false. change (Z.abs 1000000) with 1000000.
  cbv iota.
  destruct (round_quotient_finite (xorb (us <? 0) (1000000 <? 0)) (Z.abs us)
              ltac:(lia)) as [H|(m & e & H & Hb)].
  - rewrite H. cbn [bind_result].
    eapply to_nanoseconds_returns. left. reflexivity.
  - rewrite H. cbn [bind_result].
    eapply to_nanoseconds_returns. right. eauto.
Qed.

Lemma astimezone_utc_ordinal t t' :
  astimezone_utc t = Ok t' ->
  0 < (local_us t - utcoffset t) / US_PER_DAY + 1 <= MAXORDINAL.
Proof.
  unfold astimezone_utc.
  destruct ((0 <? (local_us t - utcoffset t) / US_PER_DAY + 1)
            && ((local_us t - utcoffset t) / US_PER_DAY + 1 <=? MAXORDINAL))
    eqn:E; [|discriminate].
  intros _. apply andb_prop in E. destruct E as [E1 E2].
  apply Z.ltb_lt in E1. apply Z.leb_le in E2. now split.
Qed.

Lemma astimezone_utc_range t t' :
  astimezone_utc t = Ok t' -> Z.abs (epoch_us t') < 2 ^ 58.
Proof.
  intros H. destruct (astimezone_utc_instant t t' H) as [Hi _]. rewrite Hi.
  apply astimezone_utc_ordinal in H. clear Hi t'.
  unfold epoch_us.
  assert (Hc : (ymd2ord 1970 1 1 - 1) * US_PER_DAY = 62135596800000000)
    by reflexivity.
  assert (Hp : 2 ^ 58 = 288230376151711744) by reflexivity.
  rewrite Hc, Hp. clear Hc Hp.
  set (u := local_us t - utcoffset t) in *. clearbody u.
  unfold US_PER_DAY, MAXORDINAL in H.
  pose proof (Z.div_mod u 86400000000 ltac:(discriminate)) as Hd.
  pose proof (Z.mod_pos_bound u 86400000000 ltac:(reflexivity)) as Hm.
  set (q := u / 86400000000) in *. clearbody q.
  set (r := u mod 86400000000) in *. clearbody r.
  lia.
Qed.

(** The epoch of every timestamp that converts to UTC is computed without
    an exception. *)
Lemma time_int_returns c t t' :
  astimezone_utc t = Ok t' -> exists n, time_int c (Some t) = Ok n.
Proof.
  intros H. unfold time_int. rewrite H. cbn [bind_result].
  unfold Datetime.timestamp. apply timestamp_ns_returns.
  eapply astimezone_utc_range; eassumption.
Qed.

End FloatTotal.

(** ** What the statements assume of their inputs *)

Lemma key_sorted_ascending l : key_sorted l -> ascending l.
Proof.
  unfold key_sorted, ascending. induction 1 as [|i l _ IH Hall]; constructor.
  - exact IH.
  - eapply Forall_impl; [|exact Hall]. intros j Hj. now apply ltb_str_lt.
Qed.

Lemma clock_reading_returns x : clock_reading x -> exists n, to_nanoseconds x = Ok n.
Proof.
  destruct x as [s|s| |s m e]; simpl; try contradiction.
  - intros _. apply (to_nanoseconds_returns (S754_zero s) s). now left.
  - intros [Hm He]. apply (to_nanoseconds_returns (S754_finite s m e) s).
    right. exists m, e. split; [reflexivity|].
    split; [|lia].
    assert (2 ^ 53 <= 2 ^ 73) by (apply Z.pow_le_mono_r; lia). lia.
Qed.

Lemma resolvable_time_int c timestamp :
  resolvable c timestamp -> exists n, time_int c timestamp = Ok n.
Proof.
  destruct timestamp as [t|]; cbn [resolvable].
  - intros [t' Ht]. exact (time_int_returns c t t' Ht).
  - intros H. exact (clock_reading_returns _ H).
Qed.

Lemma utc_timestamp_of_time_int c t t' n :
  astimezone_utc t = Ok t' ->
  time_int c (Some t) = Ok n ->
  utc_timestamp c (Some t) = Ok t'.
Proof.
  intros H. unfold utc_timestamp, time_int. rewrite H. cbn [bind_result].
  generalize (bind_result (Datetime.timestamp t') to_nanoseconds).
  intros r ->. reflexivity.
Qed.

Lemma resolvable_utc_timestamp c timestamp :
  resolvable c timestamp ->
  exists ts, utc_timestamp c timestamp = Ok ts
    /\ match timestamp with
       | Some t => astimezone_utc t = Ok ts
       | None => ts = datetime_now_utc c
       end.
Proof.
  destruct timestamp as [t|]; cbn [resolvable].
  - intros [t' Ht]. destruct (time_int_returns c t t' Ht) as [n Hn].
    exists t'. split; [|assumption].
    exact (utc_timestamp_of_time_int c t t' n Ht Hn).
  - intros H. destruct (clock_reading_returns _ H) as [n Hn].
    exists (datetime_now_utc c). split; [|reflexivity].
    unfold utc_timestamp. now rewrite Hn.
Qed.

Lemma iter_xO_pow2 d p : Zpos (Pos.iter xO p d) = Zpos p * 2 ^ Zpos d.
Proof.
  induction d as [|d IH] using Pos.peano_ind.
  - simpl. lia.
  - rewrite Pos.iter_succ, Pos2Z.inj_xO, IH, Pos2Z.inj_succ, Z.pow_succ_r by lia. lia.
Qed.

(** [float(n)] is exact below [2^53]. *)
Lemma of_int_exact n :
  Z.abs n < 2 ^ 53 -> exists x, PyFloat.of_int n = Ok x /\ float_is_int x n.
Proof.
  intros Hn. unfold PyFloat.of_int, binary_normalize.
  assert (Hpos : forall s p, Zpos p < 2 ^ 53 ->
            exists m e, binary_round PyFloat.prec PyFloat.emax s p 0 = S754_finite s m e
                        /\ Zpos m * 2 ^ Z.max e 0 = Zpos p * 2 ^ Z.max (- e) 0).
  { intros s p Hp. unfold binary_round, shl_align.
    rewrite digits2_pos_size.
    assert (Hl : Z.log2 (Zpos p) < 53) by (apply Z.log2_lt_pow2; lia).
    pose proof (Z.log2_nonneg (Zpos p)) as Hl0.
    assert (Hs : Zpos (Pos.size p) = Z.log2 (Zpos p) + 1).
    { rewrite <- digits2_pos_size. change (Zpos (digits2_pos p)) with (Zdigits2 (Zpos p)).
      apply Zdigits2_log2. lia. }
    rewrite Hs.
    assert (Hf : fexp PyFloat.prec PyFloat.emax (Z.log2 (Zpos p) + 1 + 0)
                 = Z.log2 (Zpos p) - 52).
    { unfold fexp, emin, PyFloat.prec, PyFloat.emax. lia. }
    rewrite Hf, Z.sub_0_r.
    unfold PyFloat.prec, PyFloat.emax.
    destruct (Z.log2 (Zpos p) - 52) as [|d|d] eqn:Hd; try lia.
    - rewrite binary_round_aux_exact; try lia.
      + replace (Z.log2 (Zpos p) - 52) with 0 by lia.
        rewrite Z.div_1_r. simpl Z.to_pos. do 2 eexists. split; [reflexivity|].
        simpl. lia.
      + replace (Z.log2 (Zpos p) - 52) with 0 by lia. now rewrite Z.mod_1_r.
    - assert (HM : Zpos (Pos.iter xO p d) = Zpos p * 2 ^ Zpos d) by apply iter_xO_pow2.
      assert (HlM : Z.log2 (Zpos (Pos.iter xO p d)) = 52).
      { rewrite HM, Z.log2_mul_pow2 by lia. lia. }
      rewrite binary_round_aux_exact; rewrite ?HlM; try lia.
      + replace (52 - 52) with 0 by lia. rewrite Z.div_1_r.
        simpl Z.to_pos. do 2 eexists. split; [reflexivity|].
        rewrite HM. rewrite Z.add_0_r.
        change (Z.max (Zneg d) 0) with 0. change (Z.max (- Zneg d) 0) with (Zpos d).
        lia.
      + now rewrite Z.mod_1_r. }
  destruct n as [|p|p].
  - exists (S754_zero false). split; reflexivity.
  - destruct (Hpos false p ltac:(lia)) as (m & e & Hr & Hv).
    unfold PyFloat.prec, PyFloat.emax in *. rewrite Hr.
    exists (S754_finite false m e). split; [reflexivity|exact Hv].
  - destruct (Hpos true p ltac:(lia)) as (m & e & Hr & Hv).
    unfold PyFloat.prec, PyFloat.emax in *. rewrite Hr.
    exists (S754_finite true m e). split; [reflexivity|].
    unfold float_is_int. change (Zneg p) with (- Zpos p).
    now rewrite !Z.mul_opp_l, Hv.
Qed.

(** What [float] returns for the values the coercion is simple on. *)
Lemma py_float_coercion v x : py_float v = Ok x -> coercion_of v x.
Proof.
  destruct v as [|b|n|y|s]; cbn [py_float coercion_of]; intros H.
  - exact I.
  - destruct (of_int_exact (if b then 1 else 0)) as (x' & Hx & Hi).
    + destruct b; reflexivity.
    + congruence.
  - intros Hn. destruct (of_int_exact n Hn) as (x' & Hx & Hi). congruence.
  - congruence.
  - exact I.
Qed.

(** ** Lists, dicts and the store *)

Section Store.

Lemma list_set_length {A} (l : list A) i x :
  List.length (list_set l i x) = List.length l.
Proof.
  revert i; induction l as [|y l IH]; intros [|i]; simpl; auto.
Qed.

Lemma nth_list_set_eq {A} (l : list A) i x d :
  (i < List.length l)%nat -> nth i (list_set l i x) d = x.
Proof.
  revert i; induction l as [|y l IH]; intros [|i]; simpl; intros H;
    try lia; auto. apply IH. lia.
Qed.

Lemma nth_list_set_neq {A} (l : list A) i j x d :
  i <> j -> nth j (list_set l i x) d = nth j l d.
Proof.
  revert i j; induction l as [|y l IH]; intros [|i] [|j] H; simpl; auto;
    try congruence.
Qed.

Lemma list_set_twice {A} (l : list A) i x y :
  list_set (list_set l i x) i y = list_set l i y.
Proof.
  revert i; induction l as [|z l IH]; intros [|i]; simpl; auto.
  now rewrite IH.
Qed.

Lemma list_set_same {A} (l : list A) i d :
  list_set l i (nth i l d) = l.
Proof.
  revert i; induction l as [|z l IH]; intros [|i]; simpl; auto.
  now rewrite IH.
Qed.

Lemma deref_set_dict_eq w r d : valid_ref w r -> deref (set_dict w r d) r = d.
Proof. intros H. unfold deref, set_dict; simpl. now apply nth_list_set_eq. Qed.

Lemma deref_set_dict_neq w r r' d : r <> r' -> deref (set_dict w r d) r' = deref w r'.
Proof. intros H. unfold deref, set_dict; simpl. now apply nth_list_set_neq. Qed.

Lemma set_dict_twice w r d d' : set_dict (set_dict w r d) r d' = set_dict w r d'.
Proof. unfold set_dict; simpl. now rewrite list_set_twice. Qed.

Lemma set_dict_same w r : set_dict w r (deref w r) = w.
Proof. destruct w as [s n]. unfold set_dict, deref; simpl. now rewrite list_set_same. Qed.

Lemma valid_ref_set_dict w r r' d : valid_ref w r' -> valid_ref (set_dict w r d) r'.
Proof. unfold valid_ref, set_dict; simpl. now rewrite list_set_length. Qed.

Lemma net_set_dict w r d : net (set_dict w r d) = net w.
Proof. reflexivity. Qed.

End Store.

Section Dicts.

Lemma keys_dict_set_in k v d :
  In k (keys d) -> keys (dict_set k v d) = keys d.
Proof.
  induction d as [|[k' v'] d IH]; simpl; [tauto|].
  destruct (String.eqb_spec k k') as [->|Hne]; simpl; [reflexivity|].
  intros [H|H]; [congruence|]. now rewrite IH.
Qed.

Lemma keys_dict_set_notin k v d :
  ~ In k (keys d) -> keys (dict_set k v d) = (keys d ++ [k])%list.
Proof.
  induction d as [|[k' v'] d IH]; simpl; [reflexivity|].
  destruct (String.eqb_spec k k') as [->|Hne]; simpl; [tauto|].
  intros H. rewrite IH; tauto.
Qed.

Lemma wf_dict_set k v d : wf_dict d -> wf_dict (dict_set k v d).
Proof.
  unfold wf_dict. intros H.
  destruct (in_dec string_dec k (keys d)) as [Hin|Hnin].
  - now rewrite keys_dict_set_in.
  - rewrite keys_dict_set_notin by assumption.
    apply NoDup_app; [assumption|repeat constructor; simpl; tauto|].
    intros x Hx [<-|[]]. tauto.
Qed.

Lemma dict_get_set_eq k v d : dict_get k (dict_set k v d) = Some v.
Proof.
  induction d as [|[k' v'] d IH]; simpl.
  - now rewrite String.eqb_refl.
  - destruct (String.eqb_spec k k') as [->|Hne]; simpl.
    + now rewrite String.eqb_refl.
    + destruct (String.eqb_spec k k'); [congruence|assumption].
Qed.

Lemma dict_get_set_neq k k' v d :
  k' <> k -> dict_get k' (dict_set k v d) = dict_get k' d.
Proof.
  intros Hne. induction d as [|[k0 v0] d IH]; simpl.
  - destruct (String.eqb_spec k' k); [congruence|reflexivity].
  - destruct (String.eqb_spec k k0) as [->|Hk]; simpl.
    + destruct (String.eqb_spec k' k0); [congruence|reflexivity].
    + now rewrite IH.
Qed.

(** Writing to the key that sits at a known place. *)
Lemma dict_set_at pre k v v' suf :
  ~ In k (keys pre) ->
  dict_set k v' (pre ++ (k, v) :: suf)%list = (pre ++ (k, v') :: suf)%list.
Proof.
  induction pre as [|[k0 v0] pre IH]; simpl; intros H.
  - now rewrite String.eqb_refl.
  - destruct (String.eqb_spec k k0) as [->|Hk]; [tauto|].
    rewrite IH; tauto.
Qed.

Lemma dict_get_in k v d : wf_dict d -> (In (k, v) d <-> dict_get k d = Some v).
Proof.
  unfold wf_dict. induction d as [|[k0 v0] d IH]; simpl; intros Hnd.
  - split; [tauto|discriminate].
  - inversion Hnd as [|? ? Hnotin Hnd']; subst.
    destruct (String.eqb_spec k k0) as [->|Hk].
    + split.
      * intros [H|H]; [congruence|].
        exfalso. apply Hnotin. change k0 with (fst (k0, v)). now apply in_map.
      * intros H. left. congruence.
    + rewrite <- (IH Hnd'). split; [intros [H|H]; [congruence|assumption]|tauto].
Qed.

Lemma wf_dict_NoDup d : wf_dict d -> NoDup d.
Proof. unfold wf_dict, keys. apply NoDup_map_inv. Qed.

Lemma dict_equiv_Permutation d1 d2 :
  wf_dict d1 -> wf_dict d2 -> dict_equiv d1 d2 -> Permutation d1 d2.
Proof.
  intros H1 H2 He. apply NoDup_Permutation; auto using wf_dict_NoDup.
  intros [k v]. rewrite !dict_get_in by assumption. now rewrite (He k).
Qed.

Lemma dict_equiv_set k v d1 d2 :
  dict_equiv d1 d2 -> dict_equiv (dict_set k v d1) (dict_set k v d2).
Proof.
  intros He k'. destruct (string_dec k' k) as [->|Hne].
  - now rewrite !dict_get_set_eq.
  - now rewrite !dict_get_set_neq.
Qed.

End Dicts.

(** ** Sorting the items *)

Section Sorting.

Lemma insert_item_perm x l : Permutation (insert_item x l) (x :: l).
Proof.
  induction l as [|y l IH]; simpl; [reflexivity|].
  destruct (item_ltb y x); [|reflexivity].
  rewrite IH. apply perm_swap.
Qed.

Lemma sorted_perm l : Permutation (sorted l) l.
Proof.
  induction l as [|x l IH]; simpl; [reflexivity|].
  rewrite insert_item_perm. now constructor.
Qed.

Lemma key_lt_trans a b c : key_lt a b -> key_lt b c -> key_lt a c.
Proof. unfold key_lt, item_ltb. apply ltb_trans. Qed.

Lemma insert_item_sorted x l :
  key_sorted l -> ~ In (fst x) (keys l) -> key_sorted (insert_item x l).
Proof.
  unfold key_sorted.
  induction l as [|y l IH]; simpl; intros Hs Hnin.
  - repeat constructor.
  - inversion Hs as [|? ? Hs' Hall]; subst.
    destruct (item_ltb y x) eqn:E.
    + constructor; [apply IH; tauto|].
      apply (Permutation_Forall (Permutation_sym (insert_item_perm x l))).
      constructor; assumption.
    + assert (Hxy : key_lt x y).
      { unfold key_lt, item_ltb in *. apply ltb_total; [assumption|].
        intros Heq. apply Hnin. left. congruence. }
      constructor; [assumption|]. constructor; [assumption|].
      eapply Forall_impl; [|exact Hall]. intros z Hz.
      eapply key_lt_trans; eassumption.
Qed.

Lemma keys_perm l1 l2 : Permutation l1 l2 -> Permutation (keys l1) (keys l2).
Proof. apply Permutation_map. Qed.

Lemma sorted_key_sorted l : wf_dict l -> key_sorted (sorted l).
Proof.
  unfold wf_dict. induction l as [|x l IH]; simpl; intros Hnd.
  - constructor.
  - inversion Hnd as [|? ? Hnin Hnd']; subst.
    apply insert_item_sorted; [auto|].
    intros Hin. apply Hnin.
    eapply Permutation_in; [apply keys_perm, sorted_perm|exact Hin].
Qed.

Lemma key_sorted_unique l1 l2 :
  key_sorted l1 -> key_sorted l2 -> Permutation l1 l2 -> l1 = l2.
Proof.
  unfold key_sorted. revert l2.
  induction l1 as [|a l1 IH]; intros l2 H1 H2 Hp.
  - apply Permutation_nil in Hp. now subst.
  - destruct l2 as [|b l2].
    { apply Permutation_sym, Permutation_nil in Hp. discriminate. }
    inversion H1 as [|? ? H1' Ha]; inversion H2 as [|? ? H2' Hb]; subst.
    assert (Hab : a = b).
    { assert (Hina : In a (b :: l2))
        by (eapply Permutation_in; [exact Hp|now left]).
      assert (Hinb : In b (a :: l1))
        by (eapply Permutation_in; [apply Permutation_sym; exact Hp|now left]).
      destruct Hina as [Heq|Hina]; [now symmetry|].
      destruct Hinb as [Heq|Hinb]; [assumption|].
      rewrite Forall_forall in Ha, Hb.
      pose proof (Ha _ Hinb) as F1. pose proof (Hb _ Hina) as F2.
      unfold key_lt, item_ltb in F1, F2.
      apply ltb_asym in F1. congruence. }
    subst b. f_equal. apply IH; auto.
    eapply Permutation_cons_inv; exact Hp.
Qed.

Lemma wf_dict_perm d1 d2 : Permutation d1 d2 -> wf_dict d1 -> wf_dict d2.
Proof.
  unfold wf_dict. intros Hp. apply Permutation_NoDup. now apply keys_perm.
Qed.

(** The sorted items depend on the mapping only, not on insertion order. *)
Lemma sorted_invariant d1 d2 :
  wf_dict d1 -> Permutation d1 d2 -> sorted d1 = sorted d2.
Proof.
  intros H1 Hp. apply key_sorted_unique.
  - now apply sorted_key_sorted.
  - apply sorted_key_sorted. eapply wf_dict_perm; eassumption.
  - rewrite sorted_perm, Hp. symmetry. apply sorted_perm.
Qed.

Lemma kv_list_invariant d1 d2 :
  wf_dict d1 -> wf_dict d2 -> dict_equiv d1 d2 -> kv_list d1 = kv_list d2.
Proof.
  intros H1 H2 He. unfold kv_list.
  now rewrite (sorted_invariant d1 d2 H1 (dict_equiv_Permutation _ _ H1 H2 He)).
Qed.

End Sorting.

(** ** The coercion loop *)

Section Coercion.

Lemma keys_coerce_list d : keys (fst (coerce_list d)) = keys d.
Proof.
  induction d as [|[k v] d IH]; simpl; [reflexivity|].
  destruct (py_float v); simpl; [|reflexivity].
  destruct (coerce_list d) as [d' r]; simpl in *. now rewrite IH.
Qed.

Lemma coerce_list_ok d :
  Forall (fun i => numeric (snd i)) d ->
  coerce_list d = (map coerce_item d, None).
Proof.
  induction 1 as [|[k v] d [x Hx] _ IH]; simpl; [reflexivity|].
  simpl in Hx. rewrite Hx, IH. unfold coerce_item, coerce_value; simpl.
  now rewrite Hx.
Qed.

Lemma coerce_list_fails d :
  Exists (fun i => ~ numeric (snd i)) d ->
  exists e i, snd (coerce_list d) = Some e /\ In i d /\ py_float (snd i) = Raise e.
Proof.
  induction 1 as [[k v] d Hn|[k v] d _ IH]; simpl.
  - destruct (py_float v) as [x|e] eqn:E.
    + exfalso. apply Hn. now exists x.
    + exists e, (k, v). simpl. auto.
  - destruct (py_float v) as [x|e] eqn:E.
    + destruct IH as (e & i & He & Hi & Hf).
      exists e, i. destruct (coerce_list d); simpl in *. auto.
    + exists e, (k, v). simpl. auto.
Qed.

Lemma py_float_error v e : py_float v = Raise e -> conversion_error e.
Proof.
  unfold conversion_error.
  destruct v as [|b|n|x|s]; simpl.
  - intros [= <-]. auto.
  - unfold PyFloat.of_int. destruct (binary_normalize _ _ _ _ _); intros [= <-]; auto.
  - unfold PyFloat.of_int. destruct (binary_normalize _ _ _ _ _); intros [= <-]; auto.
  - discriminate.
  - unfold FloatParse.of_string.
    destruct (FloatParse.drop_underscores _ _); [|intros [= <-]; auto].
    destruct (FloatParse.parse_decimal _); [discriminate|].
    destruct (FloatParse.parse_word _); [discriminate|intros [= <-]; auto].
Qed.

Lemma coerce_from_run fields : forall suf pre w,
  valid_ref w fields ->
  deref w fields = (pre ++ suf)%list ->
  NoDup (keys (pre ++ suf)%list) ->
  coerce_from (List.length suf) (List.length pre) fields w =
  (outcome (snd (coerce_list suf)),
   set_dict w fields (pre ++ fst (coerce_list suf))%list).
Proof.
  induction suf as [|[k v] suf IH]; intros pre w Hv Hd Hnd; simpl.
  - unfold ret. now rewrite <- Hd, set_dict_same.
  - unfold bind at 1, read. rewrite Hd.
    rewrite nth_error_app2, Nat.sub_diag by lia. simpl.
    unfold bind at 1, lift.
    destruct (py_float v) as [x|e] eqn:E; simpl.
    + unfold bind at 1, setitem, bind, read, write. rewrite Hd.
      assert (Hk : ~ In k (keys pre)).
      { unfold keys in Hnd. rewrite map_app in Hnd. simpl in Hnd.
        apply NoDup_remove_2 in Hnd. intros Hin. apply Hnd.
        apply in_or_app. now left. }
      rewrite dict_set_at by assumption.
      fold (set_dict w fields (pre ++ (k, PyFloat x) :: suf)%list).
      specialize (IH (pre ++ [(k, PyFloat x)])%list
                     (set_dict w fields (pre ++ (k, PyFloat x) :: suf)%list)).
      rewrite length_app, Nat.add_comm in IH. simpl in IH.
      rewrite IH.
      * rewrite set_dict_twice. destruct (coerce_list suf) as [d' r]; simpl.
        now rewrite <- app_assoc.
      * now apply valid_ref_set_dict.
      * rewrite deref_set_dict_eq by assumption. now rewrite <- app_assoc.
      * rewrite <- app_assoc. simpl.
        unfold keys in *. rewrite map_app in *. exact Hnd.
    + now rewrite <- Hd, set_dict_same.
Qed.

Lemma coerce_fields_run fields w :
  valid_ref w fields -> wf_dict (deref w fields) ->
  coerce_fields fields w =
  (outcome (snd (coerce_list (deref w fields))),
   set_dict w fields (fst (coerce_list (deref w fields)))).
Proof.
  intros Hv Hwf. unfold coerce_fields, bind, read.
  exact (coerce_from_run fields (deref w fields) [] w Hv eq_refl Hwf).
Qed.

End Coercion.

(** ** Running the formatters *)

Section Runs.

Variable c : clock.
Variables dev_id measurement_name : string.

Lemma list_set_app_last {A} (l : list A) x y :
  list_set (l ++ [x])%list (List.length l) y = (l ++ [y])%list.
Proof. induction l as [|z l IH]; simpl; [reflexivity|now rewrite IH]. Qed.

Lemma nth_app_last {A} (l : list A) x d : nth (List.length l) (l ++ [x])%list d = x.
Proof. induction l as [|z l IH]; simpl; auto. Qed.

(** Lines 69-72 and 103-106: the tags object and the world they leave. *)
Lemma inject_run {A} (k : ref -> M A) tags w :
  (r <- match tags with None => alloc [] | Some r => ret r end ;;
   update r [("dev-id", PyStr dev_id)] ;;; k r) w =
  k (tags_ref w tags) (with_tags w tags dev_id).
Proof.
  destruct tags as [r|]; unfold bind, ret, alloc, update, setitem, bind, read, write;
    simpl.
  - reflexivity.
  - unfold deref; simpl. rewrite nth_app_last, list_set_app_last. reflexivity.
Qed.

Lemma deref_with_tags_tags tags w :
  (forall r, tags = Some r -> valid_ref w r) ->
  deref (with_tags w tags dev_id) (tags_ref w tags) = tags_after w tags dev_id.
Proof.
  destruct tags as [r|]; simpl; intros Hv.
  - apply deref_set_dict_eq. now apply Hv.
  - unfold deref; simpl. apply nth_app_last.
Qed.

Lemma deref_with_tags_other tags w r :
  valid_ref w r -> r <> tags_ref w tags ->
  deref (with_tags w tags dev_id) r = deref w r.
Proof.
  destruct tags as [t|]; simpl; intros Hv Hne.
  - apply deref_set_dict_neq. congruence.
  - unfold deref; simpl. apply app_nth1. exact Hv.
Qed.

Lemma deref_with_tags_fields fields tags w :
  valid_ref w fields ->
  deref (with_tags w tags dev_id) fields = fields_at_loop w fields tags dev_id.
Proof.
  intros Hv. unfold fields_at_loop. destruct tags as [r|].
  - destruct (Nat.eqb_spec r fields) as [->|Hne].
    + now apply (deref_with_tags_tags (Some fields)); intros ? [= <-].
    + now apply deref_set_dict_neq.
  - apply deref_with_tags_other; [assumption|]. unfold valid_ref in Hv. simpl. lia.
Qed.

Lemma valid_ref_with_tags tags w r :
  valid_ref w r -> valid_ref (with_tags w tags dev_id) r.
Proof.
  destruct tags as [t|]; simpl.
  - apply valid_ref_set_dict.
  - unfold valid_ref; simpl. rewrite length_app. lia.
Qed.

Lemma net_with_tags tags w : net (with_tags w tags dev_id) = net w.
Proof. now destruct tags. Qed.

Lemma wf_fields_at_loop fields tags w :
  wf_dict (deref w fields) -> wf_dict (fields_at_loop w fields tags dev_id).
Proof.
  intros H. unfold fields_at_loop. destruct tags as [r|]; [|assumption].
  destruct (Nat.eqb_spec r fields) as [->|Hne]; [|assumption].
  now apply wf_dict_set.
Qed.

(** The whole of [create_influxdb_line] once [time_int] is known. *)
Lemma create_influxdb_line_run fields tags timestamp w n :
  valid_ref w fields ->
  (forall r, tags = Some r -> valid_ref w r) ->
  wf_dict (deref w fields) ->
  time_int c timestamp = Ok n ->
  let F := coerce_list (fields_at_loop w fields tags dev_id) in
  create_influxdb_line c dev_id measurement_name fields tags timestamp w =
  (match snd F with
   | None => Ok (line_of measurement_name (kv_list (tags_after w tags dev_id))
                         (kv_list (fst F)) n)
   | Some e => Raise e
   end,
   set_dict (with_tags w tags dev_id) fields (fst F)).
Proof.
  intros Hf Ht Hwf Hn F. unfold create_influxdb_line.
  unfold bind at 1, lift. rewrite Hn.
  rewrite inject_run.
  unfold bind at 1, read. rewrite deref_with_tags_tags by assumption.
  unfold bind at 1.
  rewrite coerce_fields_run.
  - rewrite deref_with_tags_fields by assumption. fold F.
    destruct (snd F) as [e|]; simpl; [reflexivity|].
    unfold bind, read, ret.
    rewrite deref_set_dict_eq by now apply valid_ref_with_tags.
    reflexivity.
  - now apply valid_ref_with_tags.
  - rewrite deref_with_tags_fields by assumption. now apply wf_fields_at_loop.
Qed.

Lemma create_influxdb_line_time_fails fields tags timestamp w e :
  time_int c timestamp = Raise e ->
  create_influxdb_line c dev_id measurement_name fields tags timestamp w =
  (Raise e, w).
Proof.
  intros H. unfold create_influxdb_line, bind at 1, lift. now rewrite H.
Qed.

(** The whole of [create_influxdb_dict] once the timestamp is resolved. *)
Lemma create_influxdb_dict_run fields tags timestamp w ts :
  utc_timestamp c timestamp = Ok ts ->
  create_influxdb_dict c dev_id measurement_name fields tags timestamp w =
  (Ok [("measurement", OStr measurement_name);
       ("tags", ODict (tags_ref w tags));
       ("fields", ODict fields);
       ("time", OStr (isoformat ts))],
   with_tags w tags dev_id).
Proof.
  intros H. unfold create_influxdb_dict, bind at 1, lift. rewrite H.
  now rewrite inject_run.
Qed.

End Runs.

(** When the tags are another object, the loop meets the fields as the
    caller left them. *)
Lemma fields_at_loop_distinct w fields tags dev_id :
  tags <> Some fields -> fields_at_loop w fields tags dev_id = deref w fields.
Proof.
  intros Hne. unfold fields_at_loop. destruct tags as [r|]; [|reflexivity].
  destruct (Nat.eqb_spec r fields); [congruence|reflexivity].
Qed.

(** ** The line protocol string *)

Lemma keys_map_coerce d : keys (map coerce_item d) = keys d.
Proof. unfold keys. rewrite map_map. reflexivity. Qed.

Lemma wf_map_coerce d : wf_dict d -> wf_dict (map coerce_item d).
Proof. unfold wf_dict. now rewrite keys_map_coerce. Qed.

Lemma wf_tags_after w tags dev_id :
  (forall r, tags = Some r -> wf_dict (deref w r)) ->
  wf_dict (tags_after w tags dev_id).
Proof.
  intros H. apply wf_dict_set. destruct tags as [r|]; [now apply H|constructor].
Qed.



(** C1, as it was stated, fails on a timestamp that cannot be resolved:
    9999-12-31T23:00:00-02:00 is a valid aware datetime whose UTC date is in
    the year 10000; with a numeric fields map the call raises
    [OverflowError] and returns no string. *)
Lemma create_influxdb_line_unresolved_timestamp :
  Datetime.valid last_day_west = true
  /\ Forall (fun i => numeric (snd i)) (deref example_world 0%nat)
  /\ create_influxdb_line example_clock "1234" "aq" 0%nat None
       (Some last_day_west) example_world
     = (Raise OverflowError, example_world).
Proof.
  split; [vm_compute; reflexivity|].
  split; [solve_numeric|].
  vm_compute. reflexivity.
Qed.

(** ** The [dev-id] tag *)

Lemma count_key_one k d : wf_dict d -> In k (keys d) -> count_key k d = 1%nat.
Proof.
  unfold wf_dict, count_key. intros Hnd Hin.
  now apply (proj1 (NoDup_count_occ' string_dec (keys d)) Hnd).
Qed.

Lemma dict_get_Some_in_keys k v d : dict_get k d = Some v -> In k (keys d).
Proof.
  induction d as [|[k' v'] d IH]; simpl; [discriminate|].
  destruct (String.eqb_spec k k') as [->|Hne]; auto.
Qed.

Lemma dict_get_perm k d1 d2 :
  wf_dict d1 -> Permutation d1 d2 -> dict_get k d2 = dict_get k d1.
Proof.
  intros H1 Hp.
  assert (H2 : wf_dict d2) by (eapply wf_dict_perm; eassumption).
  destruct (dict_get k d1) as [v|] eqn:E1.
  - apply dict_get_in; [assumption|].
    eapply Permutation_in; [exact Hp|]. now apply dict_get_in.
  - destruct (dict_get k d2) as [v|] eqn:E2; [|reflexivity].
    apply dict_get_in in E2; [|assumption].
    apply (Permutation_in _ (Permutation_sym Hp)) in E2.
    apply dict_get_in in E2; [congruence|assumption].
Qed.

(** What [dev-id] is in a dict that went through the injection. *)
Lemma dev_id_once w tags dev_id :
  (forall r, tags = Some r -> wf_dict (deref w r)) ->
  count_key "dev-id" (tags_after w tags dev_id) = 1%nat
  /\ dict_get "dev-id" (tags_after w tags dev_id) = Some (PyStr dev_id).
Proof.
  intros H.
  assert (Hg : dict_get "dev-id" (tags_after w tags dev_id) = Some (PyStr dev_id))
    by apply dict_get_set_eq.
  split; [|assumption].
  apply count_key_one; [now apply wf_tags_after|].
  eapply dict_get_Some_in_keys; eassumption.
Qed.

(** C2: the tag set of the output holds the key [dev-id] exactly once and
    its value is the [dev_id] argument, whatever the caller's tags map held
    under [dev-id].  In the line, the tag segment is the [key=value] list of
    items that hold [dev-id] once, with the argument as its value, and
    besides it exactly the caller's entries under the other keys; in the
    record, the tags dict holds [dev-id] once with the argument. *)
Theorem dev_id_tag_overrides
    c dev_id measurement_name fields tags timestamp w :
  valid_ref w fields ->
  wf_dict (deref w fields) ->
  (forall r, tags = Some r -> valid_ref w r /\ wf_dict (deref w r)) ->
  (forall n,
     time_int c timestamp = Ok n ->
     Forall (fun i => within_str_limit (snd i)) (tags_after w tags dev_id) ->
     Forall (fun i => numeric (snd i)) (fields_at_loop w fields tags dev_id) ->
     exists tag_items field_str,
       fst (create_influxdb_line c dev_id measurement_name fields tags timestamp w)
       = Ok (measurement_name ++ ","
             ++ join "," (map (fun i => fst i ++ "=" ++ py_str (snd i)) tag_items)
             ++ " " ++ field_str ++ " " ++ str_of_int n)
       /\ ascending tag_items
       /\ count_key "dev-id" tag_items = 1%nat
       /\ In ("dev-id", PyStr dev_id) tag_items
       /\ (forall v, In ("dev-id", v) tag_items -> v = PyStr dev_id)
       /\ (forall k v, k <> "dev-id" ->
             (In (k, v) tag_items <->
              In (k, v) match tags with Some r => deref w r | None => [] end)))
  /\
  (forall ts,
     utc_timestamp c timestamp = Ok ts ->
     exists rec w' r,
       create_influxdb_dict c dev_id measurement_name fields tags timestamp w
       = (Ok rec, w')
       /\ record_get "tags" rec = Some (ODict r)
       /\ count_key "dev-id" (deref w' r) = 1%nat
       /\ dict_get "dev-id" (deref w' r) = Some (PyStr dev_id)).
Proof.
  intros Hf Hwf Ht.
  assert (Hwt : forall r, tags = Some r -> wf_dict (deref w r))
    by (intros r Hr; now apply Ht).
  assert (Hvt : forall r, tags = Some r -> valid_ref w r)
    by (intros r Hr; now apply Ht).
  destruct (dev_id_once w tags dev_id Hwt) as [Hc Hg].
  assert (Hwa : wf_dict (tags_after w tags dev_id)) by now apply wf_tags_after.
  assert (Hwg : wf_dict match tags with Some r => deref w r | None => [] end).
  { destruct tags as [r|]; [now apply Hwt|constructor]. }
  split.
  - intros n Hn _ Hnum.
    exists (sorted (tags_after w tags dev_id)),
           (kv_list (map coerce_item (fields_at_loop w fields tags dev_id))).
    rewrite (create_influxdb_line_run c dev_id measurement_name fields tags
               timestamp w n) by auto.
    rewrite (coerce_list_ok _ Hnum). cbn [fst snd].
    assert (Hin : forall i, In i (sorted (tags_after w tags dev_id))
                            <-> In i (tags_after w tags dev_id)).
    { intros i. split; apply Permutation_in;
        [apply sorted_perm|symmetry; apply sorted_perm]. }
    split; [reflexivity|].
    split; [now apply key_sorted_ascending, sorted_key_sorted|].
    split.
    { apply count_key_one.
      + eapply wf_dict_perm; [symmetry; apply sorted_perm|assumption].
      + eapply Permutation_in; [symmetry; apply keys_perm, sorted_perm|].
        eapply dict_get_Some_in_keys; eassumption. }
    split; [apply Hin; now apply dict_get_in|].
    split.
    { intros v Hv. apply Hin in Hv. apply dict_get_in in Hv; [|assumption].
      congruence. }
    intros k v Hk. rewrite Hin, (dict_get_in k v _ Hwa), (dict_get_in k v _ Hwg).
    unfold tags_after. now rewrite dict_get_set_neq.
  - intros ts Hts.
    rewrite (create_influxdb_dict_run c dev_id measurement_name fields tags
               timestamp w ts Hts).
    eexists _, _, (tags_ref w tags). split; [reflexivity|].
    split; [reflexivity|].
    now rewrite deref_with_tags_tags.
Qed.

Lemma dev_id_tag_overrides_example :
  ((exists tag_items field_str,
      fst (create_influxdb_line example_clock "1234" "aq" 0%nat (Some 1%nat)
             (Some may_2021) example_world)
      = Ok ("aq" ++ ","
            ++ join "," (map (fun i => fst i ++ "=" ++ py_str (snd i)) tag_items)
            ++ " " ++ field_str ++ " " ++ str_of_int 1619827200000000000)
      /\ ascending tag_items
      /\ count_key "dev-id" tag_items = 1%nat
      /\ In ("dev-id", PyStr "1234") tag_items
      /\ (forall v, In ("dev-id", v) tag_items -> v = PyStr "1234")
      /\ (forall k v, k <> "dev-id" ->
            (In (k, v) tag_items <->
             In (k, v) [("site", PyStr "roof"); ("dev-id", PyStr "other")])))
   /\
   (exists rec w' r,
      create_influxdb_dict example_clock "1234" "aq" 0%nat (Some 1%nat)
        (Some may_2021) example_world = (Ok rec, w')
      /\ record_get "tags" rec = Some (ODict r)
      /\ count_key "dev-id" (deref w' r) = 1%nat
      /\ dict_get "dev-id" (deref w' r) = Some (PyStr "1234")))
  /\ fst (create_influxdb_line example_clock "1234" "aq" 0%nat (Some 1%nat)
            (Some may_2021) example_world)
     = Ok "aq,dev-id=1234,site=roof temp=42.0 1619827200000000000"
  /\ deref (snd (create_influxdb_dict example_clock "1234" "aq" 0%nat (Some 1%nat)
                   (Some may_2021) example_world)) 1%nat
     = [("site", PyStr "roof"); ("dev-id", PyStr "1234")].
Proof.
  assert (H0 : valid_ref example_world 0%nat) by solve_valid_ref.
  assert (H1 : wf_dict (deref example_world 0%nat)) by solve_wf_dict.
  assert (H2 : forall r, Some 1%nat = Some r ->
                 valid_ref example_world r /\ wf_dict (deref example_world r)).
  { intros r [= <-]. split; [solve_valid_ref|solve_wf_dict]. }
  destruct (dev_id_tag_overrides example_clock "1234" "aq" 0%nat (Some 1%nat)
              (Some may_2021) example_world H0 H1 H2) as [L D].
  split; [split|split].
  - apply L; [vm_compute; reflexivity| |solve_numeric].
    repeat (constructor; [exact I|]). constructor.
  - apply (D may_2021). vm_compute. reflexivity.
  - vm_compute. reflexivity.
  - vm_compute. reflexivity.
Defined.

(** ** Insertion order *)

Section OrderInvariance.

Variables w1 w2 : world.
Variable fields : ref.
Variable tags : option ref.
Variable dev_id : string.

Hypothesis fields_wf : wf_dict (deref w1 fields) /\ wf_dict (deref w2 fields).
Hypothesis fields_equiv : dict_equiv (deref w1 fields) (deref w2 fields).
Hypothesis tags_ok : forall r, tags = Some r ->
  (valid_ref w1 r /\ valid_ref w2 r)
  /\ (wf_dict (deref w1 r) /\ wf_dict (deref w2 r))
  /\ dict_equiv (deref w1 r) (deref w2 r).

Lemma tags_after_equiv :
  dict_equiv (tags_after w1 tags dev_id) (tags_after w2 tags dev_id).
Proof.
  unfold tags_after. apply dict_equiv_set.
  pose proof tags_ok as H. revert H.
  case tags as [r|]; intros H; [now apply H|intros k; reflexivity].
Qed.

Lemma fields_at_loop_equiv :
  dict_equiv (fields_at_loop w1 fields tags dev_id)
             (fields_at_loop w2 fields tags dev_id).
Proof.
  pose proof tags_after_equiv as H. revert H.
  unfold fields_at_loop. case tags as [r|]; intros H; [|exact fields_equiv].
  case (Nat.eqb r fields); [exact H|exact fields_equiv].
Qed.

Lemma fields_at_loop_perm :
  Permutation (fields_at_loop w1 fields tags dev_id)
              (fields_at_loop w2 fields tags dev_id).
Proof.
  apply dict_equiv_Permutation.
  - apply wf_fields_at_loop, fields_wf.
  - apply wf_fields_at_loop, fields_wf.
  - apply fields_at_loop_equiv.
Qed.

End OrderInvariance.

(** C4: two calls that differ only in the insertion order of the fields
    map and of the tags map give the same line, and records that are equal
    (their tags and fields being compared as mappings). *)
Theorem formatters_ignore_insertion_order
    c dev_id measurement_name fields tags timestamp w1 w2 :
  valid_ref w1 fields /\ valid_ref w2 fields ->
  wf_dict (deref w1 fields) /\ wf_dict (deref w2 fields) ->
  dict_equiv (deref w1 fields) (deref w2 fields) ->
  (forall r, tags = Some r ->
     (valid_ref w1 r /\ valid_ref w2 r)
     /\ (wf_dict (deref w1 r) /\ wf_dict (deref w2 r))
     /\ dict_equiv (deref w1 r) (deref w2 r)) ->
  (forall n,
     time_int c timestamp = Ok n ->
     Forall (fun i => numeric (snd i)) (fields_at_loop w1 fields tags dev_id) ->
     exists line,
       fst (create_influxdb_line c dev_id measurement_name fields tags timestamp w1)
       = Ok line
       /\ fst (create_influxdb_line c dev_id measurement_name fields tags timestamp w2)
          = Ok line)
  /\
  (forall ts,
     utc_timestamp c timestamp = Ok ts ->
     exists rec1 w1' rec2 w2',
       create_influxdb_dict c dev_id measurement_name fields tags timestamp w1
       = (Ok rec1, w1')
       /\ create_influxdb_dict c dev_id measurement_name fields tags timestamp w2
          = (Ok rec2, w2')
       /\ record_equiv w1' rec1 w2' rec2).
Proof.
  intros Hv Hwf He Ht.
  pose proof (fields_at_loop_perm w1 w2 fields tags dev_id Hwf He Ht) as Hp.
  pose proof (tags_after_equiv w1 w2 tags dev_id Ht) as Hte.
  split.
  - intros n Hn Hnum. eexists.
    rewrite !(create_influxdb_line_run c dev_id measurement_name fields tags
                timestamp _ n)
      by (try tauto; intros r Hr; now apply Ht).
    rewrite (coerce_list_ok _ Hnum).
    rewrite (coerce_list_ok (fields_at_loop w2 fields tags dev_id))
      by (eapply Permutation_Forall; eassumption).
    simpl. split; [reflexivity|]. f_equal. unfold line_of, kv_list.
    rewrite (sorted_invariant (tags_after w2 tags dev_id)
                              (tags_after w1 tags dev_id)).
    + rewrite (sorted_invariant
                 (map coerce_item (fields_at_loop w2 fields tags dev_id))
                 (map coerce_item (fields_at_loop w1 fields tags dev_id))).
      * reflexivity.
      * apply wf_map_coerce, wf_fields_at_loop, Hwf.
      * apply Permutation_map. now symmetry.
    + apply wf_tags_after. intros r Hr. now apply Ht.
    + apply dict_equiv_Permutation.
      * apply wf_tags_after. intros r Hr. now apply Ht.
      * apply wf_tags_after. intros r Hr. now apply Ht.
      * intros k. symmetry. apply Hte.
  - intros ts Hts.
    rewrite !(create_influxdb_dict_run c dev_id measurement_name fields tags
                timestamp _ ts Hts).
    do 4 eexists. split; [reflexivity|]. split; [reflexivity|].
    repeat constructor; simpl.
    + rewrite !deref_with_tags_tags by (intros r Hr; now apply Ht). exact Hte.
    + rewrite !deref_with_tags_fields by tauto.
      now apply fields_at_loop_equiv.
Qed.

Lemma formatters_ignore_insertion_order_example :
  (exists line,
     fst (create_influxdb_line example_clock "1234" "aq" 2%nat (Some 1%nat)
            (Some may_2021) example_world) = Ok line
     /\ fst (create_influxdb_line example_clock "1234" "aq" 2%nat (Some 1%nat)
               (Some may_2021) example_world_reordered) = Ok line)
  /\
  (exists rec1 w1' rec2 w2',
     create_influxdb_dict example_clock "1234" "aq" 2%nat (Some 1%nat)
       (Some may_2021) example_world = (Ok rec1, w1')
     /\ create_influxdb_dict example_clock "1234" "aq" 2%nat (Some 1%nat)
          (Some may_2021) example_world_reordered = (Ok rec2, w2')
     /\ record_equiv w1' rec1 w2' rec2).
Proof.
  destruct (formatters_ignore_insertion_order example_clock "1234" "aq" 2%nat
              (Some 1%nat) (Some may_2021) example_world example_world_reordered)
    as [L D].
  - split; solve_valid_ref.
  - split; solve_wf_dict.
  - solve_dict_equiv.
  - intros r [= <-]. split; [split; solve_valid_ref|].
    split; [split; solve_wf_dict|]. solve_dict_equiv.
  - split.
    + apply (L 1619827200000000000); [vm_compute; reflexivity|solve_numeric].
    + apply (D may_2021). vm_compute. reflexivity.
Defined.

(** ** Coercion of the field values *)

Lemma coerce_item_is_float i : numeric (snd i) -> is_float (snd (coerce_item i)).
Proof.
  intros [x Hx]. exists x. unfold coerce_item, coerce_value; simpl. now rewrite Hx.
Qed.

Lemma map_coerce_all_float d :
  Forall (fun i => numeric (snd i)) d ->
  Forall (fun i => is_float (snd i)) (map coerce_item d).
Proof.
  intros H. apply Forall_map. eapply Forall_impl; [|exact H].
  intros i. apply coerce_item_is_float.
Qed.

(** C5: a fields map (of values whose text, if any, is ASCII) with a value
    [float] rejects makes [create_influxdb_line] raise a conversion error,
    with no call made on the database client; when [float] accepts every
    value the coercion loop goes through all the fields, leaves floats
    only, and the line is returned.  [None] is a value [float] rejects
    (with [TypeError]), so is text without a number in it; [float] accepts
    every [bool], every float and every [int] below [2^53]. *)
Theorem non_numeric_field_raises
    c dev_id measurement_name fields tags timestamp w n :
  valid_ref w fields ->
  wf_dict (deref w fields) ->
  (forall r, tags = Some r -> valid_ref w r) ->
  time_int c timestamp = Ok n ->
  let F := fields_at_loop w fields tags dev_id in
  let run := create_influxdb_line c dev_id measurement_name fields tags timestamp w in
  (Forall (fun i => ascii_value (snd i)) F ->
   Exists (fun i => ~ numeric (snd i)) F ->
     exists e, fst run = Raise e /\ conversion_error e /\ net (snd run) = net w)
  /\
  (Forall (fun i => numeric (snd i)) F ->
   Forall (fun i => within_str_limit (snd i)) (tags_after w tags dev_id) ->
     coerce_fields fields (with_tags w tags dev_id)
     = (Ok tt, set_dict (with_tags w tags dev_id) fields (map coerce_item F))
     /\ Forall (fun i => is_float (snd i)) (map coerce_item F)
     /\ exists line, fst run = Ok line)
  /\
  (py_float PyNone = Raise TypeError
   /\ py_float (PyStr "n/a") = Raise ValueError
   /\ py_float (PyStr "") = Raise ValueError
   /\ (forall b, numeric (PyBool b))
   /\ (forall x, numeric (PyFloat x))
   /\ (forall k, Z.abs k < 2 ^ 53 -> numeric (PyInt k))).
Proof.
  intros Hf Hwf Ht Hn F run. subst run.
  rewrite (create_influxdb_line_run c dev_id measurement_name fields tags
             timestamp w n) by auto.
  fold F. split; [|split].
  - intros _ Hex. destruct (coerce_list_fails F Hex) as (e & i & He & _ & Hi).
    exists e. simpl. rewrite He.
    split; [reflexivity|]. split; [eapply py_float_error; eassumption|].
    apply net_with_tags.
  - intros Hall _. split; [|split].
    + rewrite coerce_fields_run.
      * rewrite deref_with_tags_fields by assumption. fold F.
        now rewrite (coerce_list_ok F Hall).
      * now apply valid_ref_with_tags.
      * rewrite deref_with_tags_fields by assumption.
        now apply wf_fields_at_loop.
    + now apply map_coerce_all_float.
    + rewrite (coerce_list_ok F Hall). simpl. eauto.
  - split; [reflexivity|]. split; [reflexivity|]. split; [reflexivity|].
    split; [|split].
    + intros b. destruct (of_int_exact (if b then 1 else 0)) as (x & Hx & _).
      * destruct b; reflexivity.
      * now exists x.
    + intros x. now exists x.
    + intros k Hk. destruct (of_int_exact k Hk) as (x & Hx & _). now exists x.
Qed.

Lemma non_numeric_field_raises_example :
  ((exists e,
      fst (create_influxdb_line example_clock "1234" "aq" 0%nat None None bad_world)
      = Raise e
      /\ conversion_error e
      /\ net (snd (create_influxdb_line example_clock "1234" "aq" 0%nat None None
                     bad_world)) = net bad_world)
   /\
   (coerce_fields 2%nat (with_tags example_world (Some 1%nat) "1234")
    = (Ok tt, set_dict (with_tags example_world (Some 1%nat) "1234") 2%nat
                (map coerce_item
                   (fields_at_loop example_world 2%nat (Some 1%nat) "1234")))
    /\ Forall (fun i => is_float (snd i))
         (map coerce_item (fields_at_loop example_world 2%nat (Some 1%nat) "1234"))
    /\ exists line,
         fst (create_influxdb_line example_clock "1234" "aq" 2%nat (Some 1%nat)
                None example_world) = Ok line))
  /\ create_influxdb_line example_clock "1234" "aq" 0%nat None None bad_world
     = (Raise ValueError,
        mk_world [ [("temp", PyFloat (S754_finite false 5910974510923776 (-47)));
                    ("hum", PyStr "n/a"); ("co2", PyNone)];
                   [("dev-id", PyStr "1234")] ] [])
  /\ fst (create_influxdb_line example_clock "1234" "aq" 2%nat (Some 1%nat)
            None example_world)
     = Ok "aq,dev-id=1234,site=roof ok=1.0,pm10=0.0,pm25=10.5 1762250000123456000".
Proof.
  split; [split|split].
  - apply (non_numeric_field_raises example_clock "1234" "aq" 0%nat None None
             bad_world 1762250000123456000).
    + solve_valid_ref.
    + solve_wf_dict.
    + discriminate.
    + vm_compute. reflexivity.
    + repeat (constructor; [simpl; auto|]). constructor.
    + apply Exists_cons_tl, Exists_cons_hd.
      intros [x Hx]. vm_compute in Hx. discriminate Hx.
  - apply (non_numeric_field_raises example_clock "1234" "aq" 2%nat (Some 1%nat)
             None example_world 1762250000123456000).
    + solve_valid_ref.
    + solve_wf_dict.
    + intros r [= <-]. solve_valid_ref.
    + vm_compute. reflexivity.
    + solve_numeric.
    + repeat (constructor; [exact I|]). constructor.
  - vm_compute. reflexivity.
  - vm_compute. reflexivity.
Defined.

(** ** Floating-point text *)

Lemma float_text_app a b : float_text (a ++ b) = float_text a || float_text b.
Proof.
  induction a as [|ch a IH]; simpl; [reflexivity|].
  now rewrite IH, orb_assoc.
Qed.

Lemma layout_float_text ds decpt : float_text (FloatRepr.layout ds decpt) = true.
Proof.
  unfold FloatRepr.layout.
  destruct ((decpt <=? -4) || (16 <? decpt)).
  - destruct ds as [|d [|d' rest]]; simpl; rewrite ?float_text_app; simpl;
      rewrite ?orb_true_r; reflexivity.
  - destruct (decpt <=? 0); [reflexivity|].
    destruct (Z.of_nat (String.length ds) <=? decpt).
    + rewrite !float_text_app. simpl. now rewrite !orb_true_r.
    + rewrite !float_text_app. simpl. now rewrite !orb_true_r.
Qed.

(** [repr] of a float never reads as an integer. *)
Lemma repr_float_text x : float_text (FloatRepr.repr x) = true.
Proof.
  destruct x as [s|s| |s m e]; unfold FloatRepr.repr.
  - destruct s; reflexivity.
  - destruct s; reflexivity.
  - reflexivity.
  - destruct (FloatRepr.digits_of (Zpos m) e) as [ds decpt].
    rewrite float_text_app, layout_float_text. apply orb_true_r.
Qed.

Lemma render_float_item k x :
  render_item (k, PyFloat x) = k ++ "=" ++ FloatRepr.repr x.
Proof. reflexivity. Qed.

(** C6: in the line every field value is written in floating-point form,
    whatever it was given as: each rendered field is [key=repr(float(v))],
    and that text is never a bare integer; for fields [{"temp": 42}] the
    field segment is [temp=42.0]. *)
Theorem field_values_emitted_as_floats
    c dev_id measurement_name fields tags timestamp w n :
  valid_ref w fields ->
  wf_dict (deref w fields) ->
  (forall r, tags = Some r -> valid_ref w r) ->
  time_int c timestamp = Ok n ->
  let F := fields_at_loop w fields tags dev_id in
  let run := create_influxdb_line c dev_id measurement_name fields tags timestamp w in
  (Forall (fun i => numeric (snd i)) F ->
     exists tag_str field_items,
       fst run = Ok (line_of measurement_name tag_str
                       (join "," (map render_item field_items)) n)
       /\ Permutation field_items (map coerce_item F)
       /\ Forall (fun i => exists x,
                    snd i = PyFloat x
                    /\ render_item i = fst i ++ "=" ++ FloatRepr.repr x
                    /\ float_text (FloatRepr.repr x) = true) field_items)
  /\
  (F = [("temp", PyInt 42)] ->
     exists tag_str, fst run = Ok (line_of measurement_name tag_str "temp=42.0" n)).
Proof.
  intros Hf Hwf Ht Hn F run. subst run.
  rewrite (create_influxdb_line_run c dev_id measurement_name fields tags
             timestamp w n) by auto.
  fold F. split.
  - intros Hall. rewrite (coerce_list_ok F Hall). simpl.
    exists (kv_list (tags_after w tags dev_id)), (sorted (map coerce_item F)).
    split; [reflexivity|]. split; [apply sorted_perm|].
    apply (Permutation_Forall (Permutation_sym (sorted_perm _))).
    apply Forall_map. eapply Forall_impl; [|exact Hall].
    intros [k v] [x Hx]. simpl in Hx. exists x.
    unfold coerce_item, coerce_value; simpl. rewrite Hx.
    split; [reflexivity|]. split; [reflexivity|apply repr_float_text].
  - intros HF. rewrite HF. exists (kv_list (tags_after w tags dev_id)).
    assert (Hc : coerce_list [("temp", PyInt 42)]
                 = ([("temp", PyFloat (S754_finite false 5910974510923776 (-47)))],
                    None)) by (vm_compute; reflexivity).
    assert (Hk : kv_list [("temp", PyFloat (S754_finite false 5910974510923776 (-47)))]
                 = "temp=42.0") by (vm_compute; reflexivity).
    rewrite Hc. cbn [fst snd]. now rewrite Hk.
Qed.

Lemma field_values_emitted_as_floats_example :
  (exists tag_str field_items,
     fst (create_influxdb_line example_clock "1234" "aq" 2%nat (Some 1%nat)
            (Some may_2021) example_world)
     = Ok (line_of "aq" tag_str (join "," (map render_item field_items))
             1619827200000000000)
     /\ Permutation field_items
          (map coerce_item (fields_at_loop example_world 2%nat (Some 1%nat) "1234"))
     /\ Forall (fun i => exists x,
                  snd i = PyFloat x
                  /\ render_item i = fst i ++ "=" ++ FloatRepr.repr x
                  /\ float_text (FloatRepr.repr x) = true) field_items)
  /\
  (exists tag_str,
     fst (create_influxdb_line example_clock "1234" "test" 0%nat None
            (Some may_2021) example_world)
     = Ok (line_of "test" tag_str "temp=42.0" 1619827200000000000)).
Proof.
  split.
  - apply (field_values_emitted_as_floats example_clock "1234" "aq" 2%nat
             (Some 1%nat) (Some may_2021) example_world 1619827200000000000).
    + solve_valid_ref.
    + solve_wf_dict.
    + intros r [= <-]. solve_valid_ref.
    + vm_compute. reflexivity.
    + solve_numeric.
  - apply (field_values_emitted_as_floats example_clock "1234" "test" 0%nat
             None (Some may_2021) example_world 1619827200000000000).
    + solve_valid_ref.
    + solve_wf_dict.
    + discriminate.
    + vm_compute. reflexivity.
    + reflexivity.
Defined.

(** ** The structured record *)

Lemma bind_result_ok {A B} (r : result A) (k : A -> result B) b :
  bind_result r k = Ok b -> exists a, r = Ok a /\ k a = Ok b.
Proof. destruct r as [a|e]; simpl; [eauto|discriminate]. Qed.



(** C7, as it was stated, fails on a timestamp that cannot be resolved:
    0001-01-01T00:00:00+01:00 is a valid aware datetime whose UTC date is
    before the year 1; the call raises [OverflowError] and returns no
    record. *)
Lemma create_influxdb_dict_unresolved_timestamp :
  Datetime.valid first_day_east = true
  /\ create_influxdb_dict example_clock "1234" "test" 0%nat (Some 1%nat)
       (Some first_day_east) example_world
     = (Raise OverflowError, example_world).
Proof. split; vm_compute; reflexivity. Qed.

(** ** The write invoker *)

Lemma write_data_succeeds cl bucket org data w :
  write_outcome cl bucket org data = Ok tt ->
  write_data cl bucket org data w =
  (Ok tt, mk_world (store w)
            (net w ++ [EvWriteApi; EvWrite bucket org data; EvClose])%list).
Proof.
  intros H. unfold write_data, bind, emit, lift; simpl. rewrite H.
  now rewrite <- !app_assoc.
Qed.

Lemma write_data_fails cl bucket org data w e :
  write_outcome cl bucket org data = Raise e ->
  write_data cl bucket org data w =
  (Raise e, mk_world (store w)
              (net w ++ [EvWriteApi; EvWrite bucket org data])%list).
Proof.
  intros H. unfold write_data, bind, emit, lift; simpl. rewrite H.
  now rewrite <- !app_assoc.
Qed.

(** C8: what [write_data] does when the write call fails: the exception
    leaves the function right after the write, and the trace of the calls on
    the client ends there, [close] not being among them. *)
Theorem write_data_leaves_write_api_open :
  write_data failing_client "bucket" "org" (PLine "test,dev-id=1234 temp=42.0 1")
    empty_world
  = (Raise (ApiException "503 Service Unavailable"),
     mk_world []
       [EvWriteApi; EvWrite "bucket" "org" (PLine "test,dev-id=1234 temp=42.0 1")])
  /\ ~ In EvClose
       (net (snd (write_data failing_client "bucket" "org"
                    (PLine "test,dev-id=1234 temp=42.0 1") empty_world)))
  /\ In EvClose
       (net (snd (write_data accepting_client "bucket" "org"
                    (PLine "test,dev-id=1234 temp=42.0 1") empty_world))).
Proof.
  split; [reflexivity|]. split.
  - simpl. intros [H|[H|[]]]; discriminate H.
  - simpl. auto.
Qed.

(** ** Effects on the caller's dicts *)

(** C9: with a tags map given, both formatters put [dev-id] into the
    caller's own dict object: after the call that object holds [dev-id] with
    the [dev_id] argument and every other key holds what it held; for the
    line formatter the tags object is taken to be another object than the
    fields one. *)
Theorem tags_mutated_in_place
    c dev_id measurement_name fields r timestamp w :
  valid_ref w fields ->
  wf_dict (deref w fields) ->
  valid_ref w r ->
  (forall n,
     time_int c timestamp = Ok n ->
     r <> fields ->
     let w' := snd (create_influxdb_line c dev_id measurement_name fields (Some r)
                      timestamp w) in
     deref w' r = dict_set "dev-id" (PyStr dev_id) (deref w r)
     /\ dict_get "dev-id" (deref w' r) = Some (PyStr dev_id)
     /\ forall k, k <> "dev-id" -> dict_get k (deref w' r) = dict_get k (deref w r))
  /\
  (forall ts,
     utc_timestamp c timestamp = Ok ts ->
     exists rec w',
       create_influxdb_dict c dev_id measurement_name fields (Some r) timestamp w
       = (Ok rec, w')
       /\ record_get "tags" rec = Some (ODict r)
       /\ deref w' r = dict_set "dev-id" (PyStr dev_id) (deref w r)
       /\ dict_get "dev-id" (deref w' r) = Some (PyStr dev_id)
       /\ forall k, k <> "dev-id" -> dict_get k (deref w' r) = dict_get k (deref w r)).
Proof.
  intros Hf Hwf Hr.
  assert (Hv : forall r0, Some r = Some r0 -> valid_ref w r0)
    by (intros r0 [= <-]; assumption).
  pose proof (deref_with_tags_tags dev_id (Some r) w Hv) as Hd.
  cbn [tags_ref] in Hd. unfold tags_after in Hd.
  split.
  - intros n Hn Hne w'. subst w'.
    rewrite (create_influxdb_line_run c dev_id measurement_name fields (Some r)
               timestamp w n) by auto.
    cbn [snd]. rewrite deref_set_dict_neq by congruence.
    rewrite Hd.
    split; [reflexivity|]. split; [apply dict_get_set_eq|].
    intros k Hk. now apply dict_get_set_neq.
  - intros ts Hts.
    rewrite (create_influxdb_dict_run c dev_id measurement_name fields (Some r)
               timestamp w ts Hts).
    do 2 eexists. split; [reflexivity|]. split; [reflexivity|].
    rewrite Hd.
    split; [reflexivity|]. split; [apply dict_get_set_eq|].
    intros k Hk. now apply dict_get_set_neq.
Qed.

Lemma tags_mutated_in_place_example :
  (let w' := snd (create_influxdb_line example_clock "1234" "aq" 0%nat (Some 1%nat)
                    (Some may_2021) example_world) in
   deref w' 1%nat = dict_set "dev-id" (PyStr "1234") (deref example_world 1%nat)
   /\ dict_get "dev-id" (deref w' 1%nat) = Some (PyStr "1234")
   /\ forall k, k <> "dev-id" ->
        dict_get k (deref w' 1%nat) = dict_get k (deref example_world 1%nat))
  /\
  (exists rec w',
     create_influxdb_dict example_clock "1234" "aq" 0%nat (Some 1%nat)
       (Some may_2021) example_world = (Ok rec, w')
     /\ record_get "tags" rec = Some (ODict 1%nat)
     /\ deref w' 1%nat = dict_set "dev-id" (PyStr "1234") (deref example_world 1%nat)
     /\ dict_get "dev-id" (deref w' 1%nat) = Some (PyStr "1234")
     /\ forall k, k <> "dev-id" ->
          dict_get k (deref w' 1%nat) = dict_get k (deref example_world 1%nat)).
Proof.
  destruct (tags_mutated_in_place example_clock "1234" "aq" 0%nat 1%nat
              (Some may_2021) example_world) as [L D].
  - solve_valid_ref.
  - solve_wf_dict.
  - solve_valid_ref.
  - split.
    + apply (L 1619827200000000000); [vm_compute; reflexivity|discriminate].
    + apply (D may_2021). vm_compute. reflexivity.
Defined.

Lemma coerce_list_none d :
  snd (coerce_list d) = None -> Forall (fun i => numeric (snd i)) d.
Proof.
  induction d as [|[k v] d IH]; simpl; [constructor|].
  destruct (py_float v) as [x|e] eqn:E; [|discriminate].
  destruct (coerce_list d) as [d' r]; simpl in *. intros ->.
  constructor; [now exists x|auto].
Qed.



(** ** The epoch in nanoseconds *)

Lemma time_int_whole_seconds c t t' s :
  astimezone_utc t = Ok t' ->
  epoch_us t' = s * 10 ^ 6 ->
  Z.abs s * 5 ^ 9 < 2 ^ 53 ->
  time_int c (Some t) = Ok (s * 10 ^ 9).
Proof.
  intros Ht Hus Hlt. change (5 ^ 9) with 1953125 in Hlt.
  unfold time_int. rewrite Ht. cbn [bind_result].
  unfold Datetime.timestamp. rewrite Hus.
  change (10 ^ 6) with 1000000.
  unfold PyFloat.int_true_div.
  change (1000000 =? 0) with false. change (1000000 <? 0) with false.
  change (Z.abs 1000000) with 1000000. cbv iota. rewrite xorb_false_r.
  destruct (Z.eq_dec s 0) as [->|Hs]; [reflexivity|].
  replace (Z.abs (s * 1000000)) with (Z.abs s * 1000000) by lia.
  rewrite round_quotient_whole by lia.
  cbn [bind_result]. rewrite to_nanoseconds_whole by lia.
  f_equal. destruct (Z.ltb_spec (s * 1000000) 0); lia.
Qed.

Lemma exact_ns_whole_seconds t s : epoch_us t = s * 10 ^ 6 -> exact_ns t = s * 10 ^ 9.
Proof.
  intros H. unfold exact_ns. rewrite H.
  replace (s * 10 ^ 6 * 10 ^ 9) with (s * 10 ^ 9 * 10 ^ 6) by ring.
  apply Z.div_mul. discriminate.
Qed.

(** Off the whole seconds the epoch is not [floor(unix_seconds * 1e9)]:
    one microsecond after 2021-05-01T00:00:00Z the exact figure is
    1619827200000001000 and the line carries 1619827200000001024. *)
Lemma epoch_ns_inexact_off_whole_seconds :
  astimezone_utc may_2021_us = Ok may_2021_us
  /\ exact_ns may_2021_us = 1619827200000001000
  /\ time_int example_clock (Some may_2021_us) = Ok 1619827200000001024
  /\ time_int example_clock (Some may_2021_us) <> Ok (exact_ns may_2021_us)
  /\ fst (create_influxdb_line example_clock "1234" "test" 0%nat None
            (Some may_2021_us) example_world)
     = Ok "test,dev-id=1234 temp=42.0 1619827200000001024".
Proof.
  assert (H : time_int example_clock (Some may_2021_us) = Ok 1619827200000001024)
    by (vm_compute; reflexivity).
  split; [vm_compute; reflexivity|].
  split; [vm_compute; reflexivity|].
  split; [exact H|].
  split; [rewrite H; vm_compute; discriminate|].
  vm_compute. reflexivity.
Qed.

(** Before 1970 the truncation is toward zero: 65 microseconds before the
    epoch the double product is -64999.99999999999 and the line carries
    -64999, the exact figure being -65000. *)
Lemma epoch_ns_truncates_toward_zero :
  time_int example_clock (Some dec_1969) = Ok (-64999)
  /\ exact_ns dec_1969 = -65000.
Proof. split; vm_compute; reflexivity. Qed.


(** C3, as it holds on the code: for a timestamp whose instant is a
    whole number [s] of seconds from the epoch with [|s| * 5^9 < 2^53]
    (1823 to 2116), the epoch in the line is
    [floor(unix_seconds * 1e9) = s * 10^9] exactly; 2021-05-01T00:00:00Z
    gives 1619827200000000000. *)
Theorem epoch_ns_exact_on_whole_seconds
    c dev_id measurement_name fields tags t t' s w :
  valid_ref w fields ->
  wf_dict (deref w fields) ->
  (forall r, tags = Some r -> valid_ref w r) ->
  Forall (fun i => numeric (snd i)) (fields_at_loop w fields tags dev_id) ->
  astimezone_utc t = Ok t' ->
  epoch_us t = s * 10 ^ 6 ->
  Z.abs s * 5 ^ 9 < 2 ^ 53 ->
  exact_ns t = s * 10 ^ 9
  /\ exact_ns t' = exact_ns t
  /\ time_int c (Some t) = Ok (exact_ns t)
  /\ (exists tag_str field_str,
        fst (create_influxdb_line c dev_id measurement_name fields tags (Some t) w)
        = Ok (line_of measurement_name tag_str field_str (exact_ns t)))
  /\ time_int c (Some may_2021) = Ok 1619827200000000000.
Proof.
  intros Hf Hwf Ht Hnum Hutc Hus Hlt.
  destruct (astimezone_utc_instant t t' Hutc) as [Hinst _].
  pose proof (exact_ns_whole_seconds t s Hus) as Hex.
  assert (Hus' : epoch_us t' = s * 10 ^ 6) by congruence.
  pose proof (time_int_whole_seconds c t t' s Hutc Hus' Hlt) as Hti.
  rewrite <- Hex in Hti.
  split; [assumption|].
  split; [unfold exact_ns; now rewrite Hinst|].
  split; [assumption|]. split.
  - rewrite (create_influxdb_line_run c dev_id measurement_name fields tags
               (Some t) w (exact_ns t)) by auto.
    rewrite (coerce_list_ok _ Hnum). cbn [fst snd]. eauto.
  - apply (time_int_whole_seconds c may_2021 may_2021 1619827200);
      [vm_compute; reflexivity|vm_compute; reflexivity|reflexivity].
Qed.

Lemma epoch_ns_exact_on_whole_seconds_example :
  exact_ns may_2021 = 1619827200 * 10 ^ 9
  /\ exact_ns may_2021 = exact_ns may_2021
  /\ time_int example_clock (Some may_2021) = Ok (exact_ns may_2021)
  /\ (exists tag_str field_str,
        fst (create_influxdb_line example_clock "1234" "test" 0%nat None
               (Some may_2021) example_world)
        = Ok (line_of "test" tag_str field_str (exact_ns may_2021)))
  /\ time_int example_clock (Some may_2021) = Ok 1619827200000000000.
Proof.
  apply (epoch_ns_exact_on_whole_seconds example_clock "1234" "test" 0%nat None
           may_2021 may_2021 1619827200 example_world).
  - solve_valid_ref.
  - solve_wf_dict.
  - discriminate.
  - solve_numeric.
  - vm_compute. reflexivity.
  - vm_compute. reflexivity.
  - vm_compute. reflexivity.
Defined.

(** ** Corner cases of the model *)

(** One dict object passed as [fields] and as [tags]: the loop coerces the
    injected [dev-id] as well, so the object ends with floats only and the
    line shows [dev-id] in both segments. *)
Lemma same_object_as_fields_and_tags :
  let run := create_influxdb_line example_clock "12" "aq" 0%nat (Some 0%nat)
               (Some may_2021) example_world in
  fst run = Ok "aq,dev-id=12,temp=42 dev-id=12.0,temp=42.0 1619827200000000000"
  /\ deref (snd run) 0%nat
     = [("temp", PyFloat (S754_finite false 5910974510923776 (-47)));
        ("dev-id", PyFloat (S754_finite false 6755399441055744 (-49)))].
Proof. split; vm_compute; reflexivity. Qed.

(** An [int] beyond the range of a double is a value [float] rejects. *)
Lemma huge_int_rejected : py_float (PyInt (10 ^ 400)) = Raise OverflowError.
Proof. vm_compute. reflexivity. Qed.

(** A conversion to UTC that leaves the years 1..9999 raises before any
    dict is touched. *)
Lemma first_day_east_of_utc :
  create_influxdb_line example_clock "1234" "aq" 0%nat (Some 1%nat)
    (Some (mk_datetime 1 1 1 0 0 0 0 3600000000)) example_world
  = (Raise OverflowError, example_world).
Proof. vm_compute. reflexivity. Qed.

(** With a timestamp given, the line is returned as soon as the timestamp
    converts to UTC and [float] accepts the field values. *)
Lemma create_influxdb_line_returns
    c dev_id measurement_name fields tags t t' w :
  valid_ref w fields ->
  wf_dict (deref w fields) ->
  (forall r, tags = Some r -> valid_ref w r) ->
  Forall (fun i => numeric (snd i)) (fields_at_loop w fields tags dev_id) ->
  astimezone_utc t = Ok t' ->
  exists line,
    fst (create_influxdb_line c dev_id measurement_name fields tags (Some t) w)
    = Ok line.
Proof.
  intros Hf Hwf Ht Hnum Hutc.
  destruct (time_int_returns c t t' Hutc) as [n Hn].
  rewrite (create_influxdb_line_run c dev_id measurement_name fields tags
             (Some t) w n) by auto.
  rewrite (coerce_list_ok _ Hnum). cbn [fst snd]. eauto.
Qed.

(** And so is the record. *)
Lemma create_influxdb_dict_returns
    c dev_id measurement_name fields tags t t' w :
  astimezone_utc t = Ok t' ->
  exists rec,
    fst (create_influxdb_dict c dev_id measurement_name fields tags (Some t) w)
    = Ok rec.
Proof.
  intros Hutc.
  destruct (time_int_returns c t t' Hutc) as [n Hn].
  pose proof (utc_timestamp_of_time_int c t t' n Hutc Hn) as Hts.
  rewrite (create_influxdb_dict_run c dev_id measurement_name fields tags
             (Some t) w t' Hts). cbn [fst]. eauto.
Qed.

(** * Further properties of the module *)

(** ** Helpers *)

Lemma string_app_assoc (a b c : string) : (a ++ b) ++ c = a ++ b ++ c.
Proof. induction a as [|ch a IH]; simpl; [reflexivity|now rewrite IH]. Qed.

Lemma tags_ref_not_fields w fields tags :
  valid_ref w fields -> tags <> Some fields -> tags_ref w tags <> fields.
Proof.
  unfold valid_ref. destruct tags as [r|]; simpl; [congruence|lia].
Qed.

Lemma coerce_list_stops pre k v suf e :
  Forall (fun i => numeric (snd i)) pre ->
  py_float v = Raise e ->
  coerce_list (pre ++ (k, v) :: suf)%list
  = ((map coerce_item pre ++ (k, v) :: suf)%list, Some e).
Proof.
  intros Hpre Hv. induction Hpre as [|[k0 v0] pre [x Hx] _ IH]; simpl.
  - now rewrite Hv.
  - simpl in Hx. rewrite Hx, IH. unfold coerce_item, coerce_value; simpl.
    now rewrite Hx.
Qed.

Lemma dict_set_twice k v d : dict_set k v (dict_set k v d) = dict_set k v d.
Proof.
  induction d as [|[k0 v0] d IH]; simpl.
  - now rewrite String.eqb_refl.
  - destruct (String.eqb k k0) eqn:E; simpl; rewrite E; [reflexivity|].
    now rewrite IH.
Qed.

Lemma coerce_item_twice i : numeric (snd i) -> coerce_item (coerce_item i) = coerce_item i.
Proof.
  intros [x Hx]. destruct i as [k v]. simpl in Hx.
  unfold coerce_item, coerce_value; simpl. now rewrite Hx.
Qed.

Lemma map_coerce_twice d :
  Forall (fun i => numeric (snd i)) d ->
  map coerce_item (map coerce_item d) = map coerce_item d.
Proof.
  induction 1 as [|i d Hi _ IH]; simpl; [reflexivity|].
  now rewrite coerce_item_twice, IH.
Qed.

Lemma map_coerce_numeric d :
  Forall (fun i => numeric (snd i)) d ->
  Forall (fun i => numeric (snd i)) (map coerce_item d).
Proof.
  intros H. apply Forall_map. eapply Forall_impl; [|exact H].
  intros [k v] [x Hx]. simpl in Hx. exists x.
  unfold coerce_item, coerce_value; simpl. now rewrite Hx.
Qed.

Lemma time_int_of_success c dev_id measurement_name fields tags timestamp w line :
  fst (create_influxdb_line c dev_id measurement_name fields tags timestamp w)
  = Ok line ->
  exists n, time_int c timestamp = Ok n.
Proof.
  intros Hok. destruct (time_int c timestamp) as [n|e] eqn:Hn; [eauto|].
  rewrite (create_influxdb_line_time_fails c dev_id measurement_name fields
             tags timestamp w e Hn) in Hok. discriminate.
Qed.

(** ** What a failed coercion leaves behind *)



(** ** A timestamp that cannot be converted *)

Lemma astimezone_utc_error t e : astimezone_utc t = Raise e -> e = OverflowError.
Proof.
  unfold astimezone_utc.
  destruct ((0 <? (local_us t - utcoffset t) / US_PER_DAY + 1)
            && ((local_us t - utcoffset t) / US_PER_DAY + 1 <=? MAXORDINAL)).
  - destruct (ord2ymd _) as [[y m] d]. discriminate.
  - congruence.
Qed.

(** X2: a timestamp whose conversion to UTC raises makes both formatters
    raise [OverflowError] before anything else happens: no dict is changed
    or created, [dev-id] is not put in and no field is coerced. *)
Theorem unconvertible_timestamp_changes_nothing
    c dev_id measurement_name fields tags t e w :
  astimezone_utc t = Raise e ->
  e = OverflowError
  /\ create_influxdb_line c dev_id measurement_name fields tags (Some t) w
     = (Raise OverflowError, w)
  /\ create_influxdb_dict c dev_id measurement_name fields tags (Some t) w
     = (Raise OverflowError, w).
Proof.
  intros H. pose proof (astimezone_utc_error t e H) as ->.
  split; [reflexivity|]. split.
  - apply create_influxdb_line_time_fails. unfold time_int. now rewrite H.
  - unfold create_influxdb_dict, bind at 1, lift, utc_timestamp. now rewrite H.
Qed.

Lemma unconvertible_timestamp_changes_nothing_example :
  OverflowError = OverflowError
  /\ create_influxdb_line example_clock "1234" "aq" 0%nat (Some 1%nat)
       (Some first_day_east) example_world
     = (Raise OverflowError, example_world)
  /\ create_influxdb_dict example_clock "1234" "aq" 0%nat (Some 1%nat)
       (Some first_day_east) example_world
     = (Raise OverflowError, example_world).
Proof.
  apply (unconvertible_timestamp_changes_nothing example_clock "1234" "aq" 0%nat
           (Some 1%nat) first_day_east OverflowError example_world).
  vm_compute. reflexivity.
Defined.

(** ** Calling the line formatter again *)

Lemma with_tags_again w r dev_id :
  valid_ref w r ->
  with_tags (with_tags w (Some r) dev_id) (Some r) dev_id = with_tags w (Some r) dev_id.
Proof.
  intros Hr. unfold with_tags, tags_after.
  rewrite deref_set_dict_eq by assumption.
  now rewrite dict_set_twice, set_dict_twice.
Qed.

(** X3: a second call of [create_influxdb_line] with the same arguments on
    the dicts the first call left (the tags dict being another object than
    the fields dict, and the clock reading the same when no timestamp is
    given) returns the same line and changes nothing any more. *)
Theorem second_call_returns_same_line
    c dev_id measurement_name fields r timestamp w line :
  valid_ref w fields ->
  wf_dict (deref w fields) ->
  valid_ref w r ->
  r <> fields ->
  fst (create_influxdb_line c dev_id measurement_name fields (Some r) timestamp w)
  = Ok line ->
  let w1 := snd (create_influxdb_line c dev_id measurement_name fields (Some r)
                   timestamp w) in
  create_influxdb_line c dev_id measurement_name fields (Some r) timestamp w1
  = (Ok line, w1).
Proof.
  intros Hf Hwf Hr Hne Hok w1.
  destruct (time_int_of_success _ _ _ _ _ _ _ _ Hok) as [n Hn].
  assert (Hv : forall r0, Some r = Some r0 -> valid_ref w r0)
    by (intros r0 [= <-]; assumption).
  assert (Hd : Some r <> Some fields) by congruence.
  pose proof (create_influxdb_line_run c dev_id measurement_name fields (Some r)
                timestamp w n Hf Hv Hwf Hn) as Hrun.
  cbv zeta in Hrun. rewrite fields_at_loop_distinct in Hrun by assumption.
  assert (Hall : Forall (fun i => numeric (snd i)) (deref w fields)).
  { apply coerce_list_none. rewrite Hrun in Hok. cbn [fst] in Hok.
    destruct (snd (coerce_list (deref w fields))); [discriminate|reflexivity]. }
  rewrite (coerce_list_ok _ Hall) in Hrun. cbn [fst snd] in Hrun.
  assert (Hw1 : w1 = set_dict (with_tags w (Some r) dev_id) fields
                       (map coerce_item (deref w fields)))
    by (unfold w1; now rewrite Hrun).
  assert (Hline : line = line_of measurement_name (kv_list (tags_after w (Some r) dev_id))
                           (kv_list (map coerce_item (deref w fields))) n)
    by (rewrite Hrun in Hok; cbn [fst] in Hok; congruence).
  clearbody w1. subst w1.
  set (wt := with_tags w (Some r) dev_id).
  set (F := map coerce_item (deref w fields)).
  assert (Hft : valid_ref wt fields) by now apply valid_ref_with_tags.
  assert (Hrt : valid_ref wt r) by now apply valid_ref_with_tags.
  assert (Hdf : deref (set_dict wt fields F) fields = F)
    by now apply deref_set_dict_eq.
  assert (Hdr : deref (set_dict wt fields F) r = tags_after w (Some r) dev_id).
  { rewrite deref_set_dict_neq by congruence.
    exact (deref_with_tags_tags dev_id (Some r) w Hv). }
  rewrite (create_influxdb_line_run c dev_id measurement_name fields (Some r)
             timestamp (set_dict wt fields F) n).
  - rewrite fields_at_loop_distinct by assumption. rewrite Hdf.
    rewrite (coerce_list_ok F) by now apply map_coerce_numeric.
    cbn [fst snd]. unfold F at 2 4. rewrite map_coerce_twice by assumption. fold F.
    assert (Hta : tags_after (set_dict wt fields F) (Some r) dev_id
                  = tags_after w (Some r) dev_id).
    { unfold tags_after at 1. rewrite Hdr. unfold tags_after.
      apply dict_set_twice. }
    rewrite Hta, Hline. f_equal.
    unfold with_tags. rewrite Hta.
    assert (H1 : set_dict (set_dict wt fields F) r (tags_after w (Some r) dev_id)
                 = set_dict wt fields F)
      by (rewrite <- Hdr; apply set_dict_same).
    rewrite H1. apply set_dict_twice.
  - now apply valid_ref_set_dict.
  - intros r0 [= <-]. now apply valid_ref_set_dict.
  - rewrite Hdf. unfold F. now apply wf_map_coerce.
  - exact Hn.
Qed.

Lemma second_call_returns_same_line_example :
  let w1 := snd (create_influxdb_line example_clock "1234" "aq" 2%nat (Some 1%nat)
                   (Some may_2021) example_world) in
  create_influxdb_line example_clock "1234" "aq" 2%nat (Some 1%nat)
    (Some may_2021) w1
  = (Ok "aq,dev-id=1234,site=roof ok=1.0,pm10=0.0,pm25=10.5 1619827200000000000",
     w1).
Proof.
  apply (second_call_returns_same_line example_clock "1234" "aq" 2%nat 1%nat
           (Some may_2021) example_world).
  - solve_valid_ref.
  - solve_wf_dict.
  - solve_valid_ref.
  - discriminate.
  - vm_compute. reflexivity.
Defined.

(** ** No escaping *)

(** X4: with no tags map given the line is the measurement name, the text
    [,dev-id=], the device id, a space, the field segment, a space and the
    epoch, the name and the device id standing in it exactly as given,
    whatever characters they hold. *)
Theorem line_without_tags_is_verbatim
    c dev_id measurement_name fields timestamp w n :
  valid_ref w fields ->
  wf_dict (deref w fields) ->
  time_int c timestamp = Ok n ->
  Forall (fun i => numeric (snd i)) (deref w fields) ->
  fst (create_influxdb_line c dev_id measurement_name fields None timestamp w)
  = Ok (measurement_name ++ ",dev-id=" ++ dev_id ++ " "
        ++ kv_list (map coerce_item (deref w fields)) ++ " " ++ str_of_int n).
Proof.
  intros Hf Hwf Hn Hall.
  rewrite (create_influxdb_line_run c dev_id measurement_name fields None
             timestamp w n) by (auto; discriminate).
  rewrite fields_at_loop_distinct by discriminate.
  rewrite (coerce_list_ok _ Hall). cbn [fst snd]. reflexivity.
Qed.

Lemma line_without_tags_is_verbatim_example :
  fst (create_influxdb_line example_clock "a b,c=d" "x y" 0%nat None
         (Some may_2021) example_world)
  = Ok ("x y" ++ ",dev-id=" ++ "a b,c=d" ++ " "
        ++ kv_list (map coerce_item (deref example_world 0%nat)) ++ " "
        ++ str_of_int 1619827200000000000).
Proof.
  apply (line_without_tags_is_verbatim example_clock "a b,c=d" "x y" 0%nat
           (Some may_2021) example_world 1619827200000000000).
  - solve_valid_ref.
  - solve_wf_dict.
  - vm_compute. reflexivity.
  - solve_numeric.
Defined.

(** X5: nothing is escaped, so a tag cannot be told from text in the
    measurement name: the call with measurement name [name,k=v] and no tags
    returns the very line of the call with measurement name [name] and the
    tags [{k: v}], for a key [k] that sorts before [dev-id]. *)
Theorem tag_in_measurement_name_collides
    c dev_id measurement_name k v fields r timestamp w n :
  valid_ref w fields ->
  wf_dict (deref w fields) ->
  valid_ref w r ->
  r <> fields ->
  deref w r = [(k, PyStr v)] ->
  String.ltb k "dev-id" = true ->
  time_int c timestamp = Ok n ->
  Forall (fun i => numeric (snd i)) (deref w fields) ->
  exists line,
    fst (create_influxdb_line c dev_id (measurement_name ++ "," ++ k ++ "=" ++ v)
           fields None timestamp w) = Ok line
    /\ fst (create_influxdb_line c dev_id measurement_name fields (Some r)
              timestamp w) = Ok line.
Proof.
  intros Hf Hwf Hr Hne Hd Hlt Hn Hall.
  assert (Hk : String.eqb "dev-id" k = false).
  { destruct (String.eqb_spec "dev-id" k) as [<-|]; [|reflexivity].
    now rewrite ltb_irrefl in Hlt. }
  eexists. split.
  - rewrite (create_influxdb_line_run c dev_id _ fields None timestamp w n)
      by (auto; discriminate).
    rewrite fields_at_loop_distinct by discriminate.
    rewrite (coerce_list_ok _ Hall). cbn [fst snd]. reflexivity.
  - rewrite (create_influxdb_line_run c dev_id measurement_name fields (Some r)
               timestamp w n)
      by (auto; intros r0 [= <-]; assumption).
    rewrite fields_at_loop_distinct by congruence.
    rewrite (coerce_list_ok _ Hall). cbn [fst snd]. f_equal.
    unfold line_of, kv_list, tags_after. rewrite Hd.
    cbn [dict_set]. rewrite Hk.
    cbn [sorted fold_right insert_item]. unfold item_ltb at 1. cbn [fst].
    rewrite (ltb_asym _ _ Hlt).
    cbn [map join]. unfold render_item. cbn [fst snd py_str].
    rewrite !string_app_assoc. reflexivity.
Qed.

Lemma tag_in_measurement_name_collides_example :
  exists line,
    fst (create_influxdb_line example_clock "1234" ("aq" ++ "," ++ "city" ++ "=" ++ "Helsinki")
           0%nat None (Some may_2021) tagged_world) = Ok line
    /\ fst (create_influxdb_line example_clock "1234" "aq" 0%nat (Some 1%nat)
              (Some may_2021) tagged_world) = Ok line.
Proof.
  apply (tag_in_measurement_name_collides example_clock "1234" "aq" "city"
           "Helsinki" 0%nat 1%nat (Some may_2021) tagged_world
           1619827200000000000).
  - solve_valid_ref.
  - solve_wf_dict.
  - solve_valid_ref.
  - discriminate.
  - reflexivity.
  - reflexivity.
  - vm_compute. reflexivity.
  - solve_numeric.
Defined.

(** ** An empty fields map *)



(** ** The record and the caller's dicts *)

Lemma time_int_of_utc_timestamp c timestamp ts :
  utc_timestamp c timestamp = Ok ts -> exists n, time_int c timestamp = Ok n.
Proof.
  unfold utc_timestamp, time_int. destruct timestamp as [t|]; intros H.
  - apply bind_result_ok in H. destruct H as (t' & -> & H).
    apply bind_result_ok in H. destruct H as (n & H & _).
    cbn [bind_result]. eauto.
  - apply bind_result_ok in H. destruct H as (n & H & _). eauto.
Qed.



(** ** The write invoker in general *)


(** X9: formatting a record and handing it to [write_data], as [main]
    does: the one write carries the record as built, and the caller's tags
    dict holds [dev-id] afterwards whether the write went through or not. *)
Theorem record_is_written_as_built
    c cl dev_id measurement_name fields tags timestamp bucket org w ts :
  (forall r, tags = Some r -> valid_ref w r) ->
  utc_timestamp c timestamp = Ok ts ->
  let rec := [("measurement", OStr measurement_name);
              ("tags", ODict (tags_ref w tags));
              ("fields", ODict fields); ("time", OStr (isoformat ts))] in
  let run :=
    (d <- create_influxdb_dict c dev_id measurement_name fields tags timestamp ;;
     write_data cl bucket org (PRecord d)) w in
  fst run = write_outcome cl bucket org (PRecord rec)
  /\ net (snd run)
     = (net w ++ [EvWriteApi; EvWrite bucket org (PRecord rec)]
        ++ match write_outcome cl bucket org (PRecord rec) with
           | Ok _ => [EvClose]
           | Raise _ => []
           end)%list
  /\ deref (snd run) (tags_ref w tags) = tags_after w tags dev_id.
Proof.
  intros Ht Hts rec run.
  assert (Hrun : run = write_data cl bucket org (PRecord rec)
                         (with_tags w tags dev_id)).
  { unfold run, bind.
    now rewrite (create_influxdb_dict_run c dev_id measurement_name fields tags
                   timestamp w ts Hts). }
  rewrite Hrun. clear Hrun run.
  pose proof (write_data_succeeds cl bucket org (PRecord rec)
                (with_tags w tags dev_id)) as Hs.
  pose proof (write_data_fails cl bucket org (PRecord rec)
                (with_tags w tags dev_id)) as Hfail.
  pose proof (deref_with_tags_tags dev_id tags w Ht) as Hd.
  unfold deref in Hd |- *.
  destruct (write_outcome cl bucket org (PRecord rec)) as [[]|e].
  - rewrite (Hs eq_refl). cbn [fst snd store net].
    now rewrite net_with_tags.
  - rewrite (Hfail e eq_refl). cbn [fst snd store net].
    now rewrite net_with_tags.
Qed.

Lemma record_is_written_as_built_example :
  let rec := [("measurement", OStr "test");
              ("tags", ODict (tags_ref example_world None));
              ("fields", ODict 0%nat);
              ("time", OStr (isoformat (datetime_now_utc example_clock)))] in
  let run :=
    (d <- create_influxdb_dict example_clock "1234" "test" 0%nat None None ;;
     write_data failing_client "iot" "fvh" (PRecord d)) example_world in
  fst run = write_outcome failing_client "iot" "fvh" (PRecord rec)
  /\ net (snd run)
     = (net example_world ++ [EvWriteApi; EvWrite "iot" "fvh" (PRecord rec)]
        ++ match write_outcome failing_client "iot" "fvh" (PRecord rec) with
           | Ok _ => [EvClose]
           | Raise _ => []
           end)%list
  /\ deref (snd run) (tags_ref example_world None)
     = tags_after example_world None "1234".
Proof.
  apply (record_is_written_as_built example_clock failing_client "1234" "test"
           0%nat None None "iot" "fvh" example_world
           (datetime_now_utc example_clock)).
  - discriminate.
  - vm_compute. reflexivity.
Defined.

(** ** The time text of the record *)

Lemma isoformat_utc t :
  utcoffset t = 0 -> exists body, isoformat t = body ++ "+00:00".
Proof.
  intros H. unfold isoformat. rewrite H.
  change (format_offset 0) with "+00:00".
  eexists. rewrite <- !string_app_assoc. reflexivity.
Qed.

(** X10: for a timestamp given in any zone, the [time] entry of the record
    is the ISO text of the same instant in UTC: it ends with [+00:00]. *)
Theorem record_time_ends_with_utc_offset
    c dev_id measurement_name fields tags t t' w :
  astimezone_utc t = Ok t' ->
  exists rec w' body,
    create_influxdb_dict c dev_id measurement_name fields tags (Some t) w
    = (Ok rec, w')
    /\ record_get "time" rec = Some (OStr (isoformat t'))
    /\ isoformat t' = body ++ "+00:00"
    /\ epoch_us t' = epoch_us t.
Proof.
  intros Hutc.
  destruct (time_int_returns c t t' Hutc) as [n Hn].
  pose proof (utc_timestamp_of_time_int c t t' n Hutc Hn) as Hts.
  destruct (astimezone_utc_instant t t' Hutc) as [Hi Ho].
  destruct (isoformat_utc t' Ho) as [body Hb].
  rewrite (create_influxdb_dict_run c dev_id measurement_name fields tags
             (Some t) w t' Hts).
  do 2 eexists. exists body.
  split; [reflexivity|]. split; [reflexivity|]. split; assumption.
Qed.

Lemma record_time_ends_with_utc_offset_example :
  exists rec w' body,
    create_influxdb_dict example_clock "1234" "aq" 0%nat None (Some east_of_utc)
      example_world = (Ok rec, w')
    /\ record_get "time" rec = Some (OStr (isoformat may_2021))
    /\ isoformat may_2021 = body ++ "+00:00"
    /\ epoch_us may_2021 = epoch_us east_of_utc.
Proof.
  apply (record_time_ends_with_utc_offset example_clock "1234" "aq" 0%nat None
           east_of_utc may_2021 example_world).
  vm_compute. reflexivity.
Defined.

(** ** What the formatters leave alone *)

(** X11: the formatters change no dict but the ones they are given, and
    make no call on the database client: [create_influxdb_line] leaves every
    dict that is neither its fields nor its tags as it was, and
    [create_influxdb_dict] every dict that is not its tags (its fields
    included), whether they return or raise. *)
Theorem formatters_change_only_their_arguments
    c dev_id measurement_name fields tags timestamp w r :
  valid_ref w fields ->
  wf_dict (deref w fields) ->
  (forall r0, tags = Some r0 -> valid_ref w r0) ->
  valid_ref w r ->
  tags <> Some r ->
  let line := create_influxdb_line c dev_id measurement_name fields tags timestamp w in
  let rec := create_influxdb_dict c dev_id measurement_name fields tags timestamp w in
  (r <> fields -> deref (snd line) r = deref w r)
  /\ net (snd line) = net w
  /\ deref (snd rec) r = deref w r
  /\ net (snd rec) = net w.
Proof.
  intros Hf Hwf Ht Hr Hne line rec.
  assert (Hrt : r <> tags_ref w tags).
  { unfold valid_ref in Hr. destruct tags as [r0|]; simpl; [congruence|lia]. }
  split; [|split].
  - intros Hrf. unfold line.
    destruct (time_int c timestamp) as [n|e] eqn:Hn.
    + rewrite (create_influxdb_line_run c dev_id measurement_name fields tags
                 timestamp w n) by auto.
      cbn [snd]. rewrite deref_set_dict_neq by congruence.
      now apply deref_with_tags_other.
    + now rewrite (create_influxdb_line_time_fails c dev_id measurement_name
                     fields tags timestamp w e Hn).
  - unfold line.
    destruct (time_int c timestamp) as [n|e] eqn:Hn.
    + rewrite (create_influxdb_line_run c dev_id measurement_name fields tags
                 timestamp w n) by auto.
      cbn [snd]. rewrite net_set_dict. apply net_with_tags.
    + now rewrite (create_influxdb_line_time_fails c dev_id measurement_name
                     fields tags timestamp w e Hn).
  - unfold rec.
    destruct (utc_timestamp c timestamp) as [ts|e] eqn:Hts.
    + rewrite (create_influxdb_dict_run c dev_id measurement_name fields tags
                 timestamp w ts Hts).
      cbn [snd]. split; [now apply deref_with_tags_other|apply net_with_tags].
    + unfold create_influxdb_dict, bind at 1, lift. rewrite Hts. auto.
Qed.

Lemma formatters_change_only_their_arguments_example :
  let line := create_influxdb_line example_clock "1234" "aq" 0%nat (Some 1%nat)
                (Some may_2021) example_world in
  let rec := create_influxdb_dict example_clock "1234" "aq" 0%nat (Some 1%nat)
               (Some may_2021) example_world in
  (2%nat <> 0%nat -> deref (snd line) 2%nat = deref example_world 2%nat)
  /\ net (snd line) = net example_world
  /\ deref (snd rec) 2%nat = deref example_world 2%nat
  /\ net (snd rec) = net example_world.
Proof.
  apply (formatters_change_only_their_arguments example_clock "1234" "aq" 0%nat
           (Some 1%nat) (Some may_2021) example_world 2%nat).
  - solve_valid_ref.
  - solve_wf_dict.
  - intros r [= <-]. solve_valid_ref.
  - solve_valid_ref.
  - discriminate.
Defined.

(** ** Connection parameters *)

Lemma token_occurs_in_message url token org bucket :
  occurs_in ("token=" ++ fstr token) (parameters_message url token org bucket).
Proof.
  exists ("Got InfluxDB parameters url=" ++ fstr url ++ ", "),
         (", org=" ++ fstr org ++ ", bucket=" ++ fstr bucket).
  unfold parameters_message. rewrite !string_app_assoc. reflexivity.
Qed.

(** X12: whenever [get_influxdb_args] returns, it has handed one message
    to [logging.info] and the token it returns stands in that message in
    clear, as [token=...]; when the argument parser exits instead, nothing
    has been logged. *)
Theorem get_influxdb_args_logs_the_token os argv env outcome log :
  get_influxdb_args os argv env = (outcome, log) ->
  match outcome with
  | Returned url token org bucket =>
      exists msg, log = [msg] /\ occurs_in ("token=" ++ fstr token) msg
  | Exited code => log = [] /\ env = false /\ argv = ParserExit code
  end.
Proof.
  unfold get_influxdb_args. destruct env.
  - intros [= <- <-]. eexists. split; [reflexivity|].
    apply token_occurs_in_message.
  - destruct argv as [url token org bucket|code]; intros [= <- <-].
    + eexists. split; [reflexivity|]. apply token_occurs_in_message.
    + auto.
Qed.

Lemma get_influxdb_args_logs_the_token_example :
  exists msg,
    ["Got InfluxDB parameters url=http://localhost:8086, token=s3cr3t, org=None, bucket=iot"]
    = [msg]
    /\ occurs_in ("token=" ++ fstr (Some "s3cr3t")) msg.
Proof.
  apply (get_influxdb_args_logs_the_token example_environ (ParserExit 2) true
           (Returned (Some "http://localhost:8086") (Some "s3cr3t") None (Some "iot"))).
  reflexivity.
Defined.


(** ** The example query *)

Lemma records_loop_app records results :
  records_loop records results = (results ++ map record_entry records)%list.
Proof.
  revert results. induction records as [|r records IH]; intros results; simpl.
  - now rewrite app_nil_r.
  - rewrite IH, <- app_assoc. reflexivity.
Qed.

Lemma tables_loop_app tables results :
  tables_loop tables results
  = (results ++ map record_entry (List.concat tables))%list.
Proof.
  revert results. induction tables as [|t tables IH]; intros results; simpl.
  - now rewrite app_nil_r.
  - rewrite IH, records_loop_app, map_app, <- app_assoc. reflexivity.
Qed.

(** X14: when the query returns, [test_query] returns one dict per record
    of the answer, each with the single entry field: value of its record,
    in the order of the tables and of the records in them (records with
    the same field are not merged), and prints [Query done] once; when the
    query raises, the exception leaves [test_query] and nothing is printed. *)
Theorem test_query_gives_one_dict_per_record cl :
  (forall tables,
     query_outcome cl q = Ok tables ->
     test_query cl
     = (Ok (map (fun r => [(get_field r, get_value r)]) (List.concat tables)),
        ["Query done"]))
  /\ (forall e, query_outcome cl q = Raise e -> test_query cl = (Raise e, [])).
Proof.
  unfold test_query. split.
  - intros tables ->. now rewrite tables_loop_app.
  - intros e ->. reflexivity.
Qed.

Lemma test_query_gives_one_dict_per_record_example :
  test_query example_query_client
  = (Ok (map (fun r => [(get_field r, get_value r)]) (List.concat example_tables)),
     ["Query done"])
  /\ test_query failing_query_client
     = (Raise (ApiException "401 Unauthorized"), []).
Proof.
  split.
  - apply (proj1 (test_query_gives_one_dict_per_record example_query_client)).
    reflexivity.
  - apply (proj2 (test_query_gives_one_dict_per_record failing_query_client)).
    reflexivity.
Defined.

(** ** The zone of the timestamp *)

Lemma astimezone_utc_same_instant t1 t2 :
  epoch_us t1 = epoch_us t2 -> astimezone_utc t1 = astimezone_utc t2.
Proof.
  unfold epoch_us, astimezone_utc. intros H.
  replace (local_us t2 - utcoffset t2) with (local_us t1 - utcoffset t1) by lia.
  reflexivity.
Qed.

(** X15: the formatters see a timestamp only through its instant: two
    timestamps that name one instant in different zones give the same line
    and the same record, with the same effects. *)
Theorem formatters_depend_on_the_instant_only
    c dev_id measurement_name fields tags t1 t2 w :
  epoch_us t1 = epoch_us t2 ->
  create_influxdb_line c dev_id measurement_name fields tags (Some t1) w
  = create_influxdb_line c dev_id measurement_name fields tags (Some t2) w
  /\ create_influxdb_dict c dev_id measurement_name fields tags (Some t1) w
     = create_influxdb_dict c dev_id measurement_name fields tags (Some t2) w.
Proof.
  intros H. pose proof (astimezone_utc_same_instant t1 t2 H) as Ha.
  unfold create_influxdb_line, create_influxdb_dict, time_int, utc_timestamp.
  now rewrite Ha.
Qed.

Lemma formatters_depend_on_the_instant_only_example :
  create_influxdb_line example_clock "1234" "aq" 0%nat None (Some east_of_utc)
    example_world
  = create_influxdb_line example_clock "1234" "aq" 0%nat None (Some west_of_utc)
      example_world
  /\ create_influxdb_dict example_clock "1234" "aq" 0%nat None (Some east_of_utc)
       example_world
     = create_influxdb_dict example_clock "1234" "aq" 0%nat None (Some west_of_utc)
         example_world.
Proof.
  apply (formatters_depend_on_the_instant_only example_clock "1234" "aq" 0%nat
           None east_of_utc west_of_utc example_world).
  vm_compute. reflexivity.
Defined.

(** ** Which exceptions can leave the formatters *)

Lemma numeric_dec v : {numeric v} + {~ numeric v}.
Proof.
  unfold numeric. destruct (py_float v) as [x|e].
  - left. now exists x.
  - right. intros [x Hx]. discriminate Hx.
Qed.

(** X16: with a timestamp that converts to UTC, [create_influxdb_dict]
    never raises, whatever the fields dict holds (values [float] rejects
    included), and the fields dict stays as it was when it is not the tags
    dict as well. *)
Theorem create_influxdb_dict_never_raises
    c dev_id measurement_name fields tags t t' w :
  valid_ref w fields ->
  astimezone_utc t = Ok t' ->
  exists rec,
    fst (create_influxdb_dict c dev_id measurement_name fields tags (Some t) w)
    = Ok rec
    /\ (tags <> Some fields ->
        deref (snd (create_influxdb_dict c dev_id measurement_name fields tags
                      (Some t) w)) fields
        = deref w fields).
Proof.
  intros Hf Hutc.
  destruct (time_int_returns c t t' Hutc) as [n Hn].
  pose proof (utc_timestamp_of_time_int c t t' n Hutc Hn) as Hts.
  rewrite (create_influxdb_dict_run c dev_id measurement_name fields tags
             (Some t) w t' Hts). cbn [fst snd].
  eexists. split; [reflexivity|].
  intros Hne. rewrite deref_with_tags_fields by assumption.
  now apply fields_at_loop_distinct.
Qed.

Lemma create_influxdb_dict_never_raises_example :
  exists rec,
    fst (create_influxdb_dict example_clock "1234" "aq" 0%nat None
           (Some east_of_utc) bad_world) = Ok rec
    /\ (None <> Some 0%nat ->
        deref (snd (create_influxdb_dict example_clock "1234" "aq" 0%nat None
                      (Some east_of_utc) bad_world)) 0%nat
        = deref bad_world 0%nat).
Proof.
  apply (create_influxdb_dict_never_raises example_clock "1234" "aq" 0%nat None
           east_of_utc may_2021 bad_world).
  - solve_valid_ref.
  - vm_compute. reflexivity.
Defined.



(** ** Timestamps that always convert *)

Lemma days_before_month_bounds y m :
  1 <= m <= 12 -> 0 <= days_before_month y m <= 335.
Proof.
  intros Hm. unfold days_before_month.
  assert (Hc : m = 1 \/ m = 2 \/ m = 3 \/ m = 4 \/ m = 5 \/ m = 6 \/ m = 7
               \/ m = 8 \/ m = 9 \/ m = 10 \/ m = 11 \/ m = 12) by lia.
  destruct (is_leap y);
    repeat (destruct Hc as [->|Hc]; [simpl; lia|]); subst; simpl; lia.
Qed.

Lemma days_before_year_bounds y :
  2 <= y <= 9998 -> 365 <= days_before_year y <= 3651329.
Proof.
  intros Hy. unfold days_before_year.
  Z.to_euclidean_division_equations. lia.
Qed.

Lemma valid_bounds t :
  Datetime.valid t = true ->
  (1 <= month t <= 12) /\ (1 <= day t <= days_in_month (year t) (month t))
  /\ (0 <= hour t < 24) /\ (0 <= minute t < 60) /\ (0 <= second t < 60)
  /\ (0 <= microsecond t < 1000000)
  /\ (- US_PER_DAY < utcoffset t < US_PER_DAY).
Proof.
  unfold Datetime.valid. intros H.
  repeat (apply andb_prop in H; destruct H as [H ?]).
  repeat match goal with
         | H : (_ <=? _) = true |- _ => apply Z.leb_le in H
         | H : (_ <? _) = true |- _ => apply Z.ltb_lt in H
         end.
  lia.
Qed.

Lemma days_in_month_le y m : days_in_month y m <= 31.
Proof.
  unfold days_in_month. destruct ((m =? 2) && is_leap y); [lia|].
  destruct (Z.to_nat m) as [|[|[|[|[|[|[|[|[|[|[|[|[|k]]]]]]]]]]]]]; simpl; try lia.
  destruct k; lia.
Qed.


